(** * LiveKit token server (server.py): a shallow embedding and its properties

    The two Flask handlers of [server.py], [generate_token] (POST /token)
    and [getToken] (GET /getToken), are embedded as functions in a small
    monad that records the effects the handlers perform (environment
    reads, calls into the livekit library, log records) and propagates
    Python exceptions.  The livekit library and Flask's body parser are
    not part of the repository: the former is an interface (a type
    class), the outcome of the latter is part of the request. *)

From Stdlib Require Import String Ascii List ZArith Bool Floats.
From stdpp Require Import base option strings gmap.
Import ListNotations.
Local Open Scope string_scope.
Set Warnings "-register-all".

(** ** Python values coming out of (and going into) JSON *)

(** What [request.get_json()] can return, and what [jsonify] accepts:
    [None], [bool], [int], [float], [str], [list], [dict].  A dict keeps
    its items in insertion order; [get] finds the item of a key. *)
Inductive json : Type :=
| JNull
| JBool (b : bool)
| JInt (n : Z)
| JFloat (f : float)
| JStr (s : string)
| JList (l : list json)
| JDict (d : list (string * json)).

(** Python truthiness ([not v] is [negb (truthy v)]). *)
Definition truthy (v : json) : bool :=
  match v with
  | JNull => false
  | JBool b => b
  | JInt n => negb (n =? 0)%Z
  | JFloat f => negb (PrimFloat.eqb f 0%float)
  | JStr s => negb (String.length s =? 0)%nat
  | JList l => negb (length l =? 0)%nat
  | JDict d => negb (length d =? 0)%nat
  end.

(** [type(v).__name__], as it appears in an [AttributeError]. *)
Definition type_name (v : json) : string :=
  match v with
  | JNull => "NoneType"
  | JBool _ => "bool"
  | JInt _ => "int"
  | JFloat _ => "float"
  | JStr _ => "str"
  | JList _ => "list"
  | JDict _ => "dict"
  end.

(** Item lookup in a dict and in a query-string multi-dict (the first
    value of the key). *)
Fixpoint lookup_key {V : Type} (k : string) (items : list (string * V)) : option V :=
  match items with
  | [] => None
  | (k', v) :: rest => if String.eqb k k' then Some v else lookup_key k rest
  end.

Definition default_or {V : Type} (default : V) (o : option V) : V :=
  match o with
  | Some v => v
  | None => default
  end.

(** Truthiness of the result of [os.getenv(k)]: [None] and [''] are falsy. *)
Definition truthy_str (v : option string) : bool :=
  match v with
  | None => false
  | Some s => negb (String.length s =? 0)%nat
  end.

(** ** Exceptions, effects and the handler monad *)

Record exn : Type := Exn { exn_type : string; exn_msg : string }.

(** Keyword arguments of [api.VideoGrants(...)]; [None] is a keyword the
    call does not pass. *)
Record VideoGrants : Type := mkVideoGrants {
  room_join : option bool;
  room : option json;
  can_publish : option bool;
  can_subscribe : option bool;
  can_publish_data : option bool
}.

(** What the builder chain
    [api.AccessToken(k, s).with_identity(i).with_name(n).with_grants(g)]
    is given. *)
Record AccessToken : Type := mkAccessToken {
  tok_api_key : option string;
  tok_api_secret : option string;
  tok_identity : json;
  tok_name : json;
  tok_grants : VideoGrants
}.

(** A log record: an f-string, kept as its literal pieces and the values
    formatted into it. *)
Inductive frag : Type :=
| Lit (s : string)
| Fmt (v : json).

Inductive event : Type :=
| EnvRead (key : string)
| TokenBuild (t : AccessToken)
| TokenSign (t : AccessToken)
| LogInfo (msg : list frag)
| LogError (msg : list frag).

Inductive outcome (A : Type) : Type :=
| Ret (a : A)
| Raise (e : exn).
Arguments Ret {A} a.
Arguments Raise {A} e.

(** A computation yields an outcome and the events it performed, oldest
    first. *)
Definition M (A : Type) : Type := outcome A * list event.

Definition ret {A} (a : A) : M A := (Ret a, []).
Definition raise {A} (e : exn) : M A := (Raise e, []).
Definition emit (ev : event) : M unit := (Ret tt, [ev]).

Definition bind {A B} (m : M A) (k : A -> M B) : M B :=
  match m with
  | (Ret a, tr) => let '(o, tr') := k a in (o, (tr ++ tr')%list)
  | (Raise e, tr) => (Raise e, tr)
  end.

(** [try: m except Exception as e: h e] *)
Definition try_except {A} (m : M A) (h : exn -> M A) : M A :=
  match m with
  | (Ret a, tr) => (Ret a, tr)
  | (Raise e, tr) => let '(o, tr') := h e in (o, (tr ++ tr')%list)
  end.

Definition lift {A} (o : outcome A) : M A := (o, []).

Notation "'do' x <- m ; k" := (bind m (fun x => k))
  (at level 10, x name, m at level 100, k at level 200).
Notation "'run' m ; k" := (bind m (fun _ => k))
  (at level 10, m at level 100, k at level 200).

(** ** The request, the process environment and the response *)

(** [get_json] is what [request.get_json()] does on this request (the
    parsed body, [None], or an exception raised by Flask); [args] is
    [request.args], the query parameters in order. *)
Record Request : Type := mkRequest {
  get_json : outcome json;
  args : list (string * string)
}.

Inductive body : Type :=
| JsonBody (j : json)
| TextBody (s : string).

Record Response : Type := mkResponse {
  status : nat;
  content : body
}.

(** [jsonify(d), code] *)
Definition jsonify (d : list (string * json)) (code : nat) : Response :=
  {| status := code; content := JsonBody (JDict d) |}.

(** A handler that returns a [str]: Flask answers 200 with that text. *)
Definition text_response (s : string) : Response :=
  {| status := 200; content := TextBody s |}.

(** [v.get(key, default)]: defined on a dict, an [AttributeError] on any
    other value. *)
Definition py_get (v : json) (key : string) (default : json) : M json :=
  match v with
  | JDict d => ret (default_or default (lookup_key key d))
  | _ => raise (Exn "AttributeError"
                  ("'" ++ type_name v ++ "' object has no attribute 'get'"))
  end.

(** [args.get(key, default)] on the query parameters. *)
Definition args_get (a : list (string * string)) (key default : string) : string :=
  default_or default (lookup_key key a).

(** The livekit library, as far as the handlers use it: the builder
    chain that makes the token object, and [to_jwt], which signs it. *)
Class LiveKitApi : Type := {
  access_token : AccessToken -> outcome unit;
  to_jwt : AccessToken -> outcome string
}.

(** ** The handlers *)

Definition err_no_json : Response :=
  jsonify [("error", JStr "No JSON data provided")] 400.
Definition err_required : Response :=
  jsonify [("error", JStr "roomName and participantName are required")] 400.
Definition err_config : Response :=
  jsonify [("error", JStr "Server configuration error")] 500.
Definition err_internal : Response :=
  jsonify [("error", JStr "Internal server error")] 500.

(** The grants of POST /token and of GET /getToken. *)
Definition full_grants (room_name : json) : VideoGrants :=
  {| room_join := Some true;
     room := Some room_name;
     can_publish := Some true;
     can_subscribe := Some true;
     can_publish_data := Some true |}.

Definition minimal_grants (room_name : json) : VideoGrants :=
  {| room_join := Some true;
     room := Some room_name;
     can_publish := None;
     can_subscribe := None;
     can_publish_data := None |}.

Section Handlers.
Context {lk : LiveKitApi}.
Variable env : gmap string string.

(** [os.getenv(key)] and [os.getenv(key, default)] *)
Definition getenv (key : string) : M (option string) :=
  run emit (EnvRead key); ret (env !! key).

Definition getenv_default (key default : string) : M string :=
  run emit (EnvRead key); ret (default_or default (env !! key)).

Definition build (t : AccessToken) : M unit :=
  run emit (TokenBuild t); lift (access_token t).

Definition sign (t : AccessToken) : M string :=
  run emit (TokenSign t); lift (to_jwt t).

(** The [try] block of [generate_token]. *)
Definition generate_token_try (req : Request) : M Response :=
  do data <- lift (get_json req);
  if negb (truthy data) then ret err_no_json else
  do room_name <- py_get data "roomName" JNull;
  do participant_name <- py_get data "participantName" JNull;
  do participant_identity <- py_get data "participantIdentity" participant_name;
  if negb (truthy room_name) || negb (truthy participant_name)
  then ret err_required else
  do api_key <- getenv "LIVEKIT_API_KEY";
  do api_secret <- getenv "LIVEKIT_API_SECRET";
  do server_url <- getenv_default "LIVEKIT_URL" "ws://localhost:7880";
  if negb (truthy_str api_key) || negb (truthy_str api_secret)
  then run emit (LogError [Lit "Missing LIVEKIT_API_KEY or LIVEKIT_API_SECRET"]);
       ret err_config
  else
  let token := {| tok_api_key := api_key;
                  tok_api_secret := api_secret;
                  tok_identity := participant_identity;
                  tok_name := participant_name;
                  tok_grants := full_grants room_name |} in
  run build token;
  do jwt_token <- sign token;
  let response := [("serverUrl", JStr server_url);
                   ("roomName", room_name);
                   ("participantName", participant_name);
                   ("participantToken", JStr jwt_token)] in
  run emit (LogInfo [Lit "Generated token for participant '"; Fmt participant_name;
                     Lit "' in room '"; Fmt room_name; Lit "'"]);
  ret (jsonify response 200).

Definition generate_token (req : Request) : M Response :=
  try_except (generate_token_try req)
    (fun e =>
       run emit (LogError [Lit "Error generating token: "; Lit (exn_msg e)]);
       ret err_internal).

(** The [try] block of [getToken]. *)
Definition getToken_try (room_name participant_name : string) : M Response :=
  do api_key <- getenv "LIVEKIT_API_KEY";
  do api_secret <- getenv "LIVEKIT_API_SECRET";
  if negb (truthy_str api_key) || negb (truthy_str api_secret)
  then ret err_config
  else
  let token := {| tok_api_key := api_key;
                  tok_api_secret := api_secret;
                  tok_identity := JStr participant_name;
                  tok_name := JStr participant_name;
                  tok_grants := minimal_grants (JStr room_name) |} in
  run build token;
  do jwt <- sign token;
  ret (text_response jwt).

Definition getToken (req : Request) : M Response :=
  let room_name := args_get (args req) "room" "my-room" in
  let participant_name := args_get (args req) "participant" "anonymous" in
  try_except (getToken_try room_name participant_name)
    (fun e =>
       run emit (LogError [Lit "Error in legacy token endpoint: "; Lit (exn_msg e)]);
       ret err_internal).

End Handlers.

(** [app.route]: the three routes of the application. *)
Inductive route : Type :=
| Health      (* GET /health *)
| Token       (* POST /token *)
| GetTokenLegacy.  (* GET /getToken *)

Definition health : M Response :=
  ret (jsonify [("status", JStr "healthy")] 200).

Definition handle {lk : LiveKitApi} (env : gmap string string)
    (r : route) (req : Request) : M Response :=
  match r with
  | Health => health
  | Token => generate_token env req
  | GetTokenLegacy => getToken env req
  end.

(** What a run of a handler answered and what it did. *)
Definition answer (m : M Response) : option Response :=
  match fst m with
  | Ret r => Some r
  | Raise _ => None
  end.

Definition trace {A} (m : M A) : list event := snd m.

(** The check of test_server.py on a token: [token.count('.') == 2]. *)
Fixpoint count_dots (s : string) : nat :=
  match s with
  | EmptyString => 0
  | String c rest => (if Ascii.eqb c "."%char then 1 else 0) + count_dots rest
  end.

(** ** Sample libraries and configurations, to run the handlers on *)

(** A library that signs every token. *)
Definition signing_api : LiveKitApi :=
  {| access_token := fun _ => Ret tt;
     to_jwt := fun _ => Ret "aGVhZGVy.Y2xhaW1z.c2lnbmF0dXJl" |}.

(** A library whose [to_jwt] refuses a token with a falsy identity or
    room. *)
Definition strict_api : LiveKitApi :=
  {| access_token := fun _ => Ret tt;
     to_jwt := fun t =>
       if truthy (tok_identity t) && truthy (default_or JNull (room (tok_grants t)))
       then Ret "aGVhZGVy.Y2xhaW1z.c2lnbmF0dXJl"
       else Raise (Exn "ValueError" "identity and room must be set when joining a room") |}.

(** Libraries that fail with [e], when building and when signing. *)
Definition build_failing_api (e : exn) : LiveKitApi :=
  {| access_token := fun _ => Raise e;
     to_jwt := fun _ => Ret "aGVhZGVy.Y2xhaW1z.c2lnbmF0dXJl" |}.

Definition sign_failing_api (e : exn) : LiveKitApi :=
  {| access_token := fun _ => Ret tt;
     to_jwt := fun _ => Raise e |}.

Definition env_ok : gmap string string :=
  <["LIVEKIT_API_KEY" := "devkey"]> (<["LIVEKIT_API_SECRET" := "secret"]> ∅).

Definition env_with_url : gmap string string :=
  <["LIVEKIT_URL" := "wss://lk.example.org"]> env_ok.

Definition env_no_secret : gmap string string :=
  <["LIVEKIT_API_KEY" := "devkey"]> ∅.

(** The body test_server.py posts. *)
Definition test_data : json :=
  JDict [("roomName", JStr "test-room"); ("participantName", JStr "test-participant")].

Definition post (data : json) : Request := {| get_json := Ret data; args := [] |}.
Definition query (a : list (string * string)) : Request :=
  {| get_json := Ret JNull; args := a |}.

(** ** Notions the statements below use *)

(** The value of [data.get(key)] for a posted dict. *)
Definition field (d : list (string * json)) (key : string) : json :=
  default_or JNull (lookup_key key d).

(** The three configuration reads of [generate_token], the two of
    [getToken]. *)
Definition config_reads : list event :=
  [EnvRead "LIVEKIT_API_KEY"; EnvRead "LIVEKIT_API_SECRET"; EnvRead "LIVEKIT_URL"].

Definition credential_reads : list event :=
  [EnvRead "LIVEKIT_API_KEY"; EnvRead "LIVEKIT_API_SECRET"].

(** Both signing credentials are set and not empty. *)
Definition configured (env : gmap string string) : bool :=
  truthy_str (env !! "LIVEKIT_API_KEY") && truthy_str (env !! "LIVEKIT_API_SECRET").

(** The token [generate_token] builds for a posted dict [d]. *)
Definition posted_token (env : gmap string string) (d : list (string * json)) : AccessToken :=
  {| tok_api_key := env !! "LIVEKIT_API_KEY";
     tok_api_secret := env !! "LIVEKIT_API_SECRET";
     tok_identity := default_or (field d "participantName")
                       (lookup_key "participantIdentity" d);
     tok_name := field d "participantName";
     tok_grants := full_grants (field d "roomName") |}.

(** The token [getToken] builds for a room and a participant. *)
Definition legacy_token (env : gmap string string) (room_name participant_name : string)
    : AccessToken :=
  {| tok_api_key := env !! "LIVEKIT_API_KEY";
     tok_api_secret := env !! "LIVEKIT_API_SECRET";
     tok_identity := JStr participant_name;
     tok_name := JStr participant_name;
     tok_grants := minimal_grants (JStr room_name) |}.

(** A JSON string that is not empty. *)
Definition nonempty_str (v : json) : bool :=
  match v with
  | JStr s => negb (String.length s =? 0)%nat
  | _ => false
  end.

(** A key that is absent from a dict, or present with the empty string. *)
Definition absent_or_empty (o : option json) : bool :=
  match o with
  | None => true
  | Some (JStr s) => (String.length s =? 0)%nat
  | Some _ => false
  end.

(** An answer that carries an ["error"] key. *)
Definition is_error (r : Response) : bool :=
  match content r with
  | JsonBody (JDict d) => bool_decide (is_Some (lookup_key "error" d))
  | _ => false
  end.

(** The keys of a JSON answer, in order. *)
Definition keys (r : Response) : list string :=
  match content r with
  | JsonBody (JDict d) => map fst d
  | _ => []
  end.

(** The guard on a token: room name and participant name are non-empty
    strings, key id and secret are set and not empty. *)
Definition named_and_configured (t : AccessToken) : bool :=
  nonempty_str (default_or JNull (room (tok_grants t)))
  && nonempty_str (tok_name t)
  && truthy_str (tok_api_key t)
  && truthy_str (tok_api_secret t).

(** A run answered 200 on one of the two token routes. *)
Definition token_produced (r : route) (m : M Response) : Prop :=
  r <> Health /\ exists resp, answer m = Some resp /\ status resp = 200.

(** A run reached [to_jwt]. *)
Definition signing_reached (m : M Response) : Prop :=
  exists t, In (TokenSign t) (trace m).

(** A run made no call into the livekit library. *)
Definition no_token_call (m : M Response) : Prop :=
  forall t, ~ In (TokenBuild t) (trace m) /\ ~ In (TokenSign t) (trace m).

(** A run read no configuration. *)
Definition no_config_read (m : M Response) : Prop :=
  forall key, ~ In (EnvRead key) (trace m).

(** The text of an answer whose body is plain text. *)
Definition content_text (a : option Response) : option string :=
  match a with
  | Some {| content := TextBody s |} => Some s
  | _ => None
  end.

(** ** The paths through the handlers *)

(** Every way [generate_token] can run on a request: what decides the
    path, the answer, and the events in order. *)
Inductive post_path {lk : LiveKitApi} (env : gmap string string) (req : Request)
    : M Response -> Prop :=
| post_body_raises e :
    get_json req = Raise e ->
    post_path env req
      (Ret err_internal, [LogError [Lit "Error generating token: "; Lit (exn_msg e)]])
| post_no_json data :
    get_json req = Ret data ->
    truthy data = false ->
    post_path env req (Ret err_no_json, [])
| post_not_dict data :
    get_json req = Ret data ->
    truthy data = true ->
    (forall d, data <> JDict d) ->
    post_path env req
      (Ret err_internal,
       [LogError [Lit "Error generating token: ";
                  Lit ("'" ++ type_name data ++ "' object has no attribute 'get'")]])
| post_required d :
    get_json req = Ret (JDict d) ->
    d <> [] ->
    truthy (field d "roomName") && truthy (field d "participantName") = false ->
    post_path env req (Ret err_required, [])
| post_config d :
    get_json req = Ret (JDict d) ->
    truthy (field d "roomName") && truthy (field d "participantName") = true ->
    configured env = false ->
    post_path env req
      (Ret err_config,
       (config_reads ++ [LogError [Lit "Missing LIVEKIT_API_KEY or LIVEKIT_API_SECRET"]])%list)
| post_build_raises d e :
    get_json req = Ret (JDict d) ->
    truthy (field d "roomName") && truthy (field d "participantName") = true ->
    configured env = true ->
    access_token (posted_token env d) = Raise e ->
    post_path env req
      (Ret err_internal,
       (config_reads ++ [TokenBuild (posted_token env d);
                        LogError [Lit "Error generating token: "; Lit (exn_msg e)]])%list)
| post_sign_raises d e :
    get_json req = Ret (JDict d) ->
    truthy (field d "roomName") && truthy (field d "participantName") = true ->
    configured env = true ->
    access_token (posted_token env d) = Ret tt ->
    to_jwt (posted_token env d) = Raise e ->
    post_path env req
      (Ret err_internal,
       (config_reads ++ [TokenBuild (posted_token env d);
                        TokenSign (posted_token env d);
                        LogError [Lit "Error generating token: "; Lit (exn_msg e)]])%list)
| post_issued d jwt :
    get_json req = Ret (JDict d) ->
    truthy (field d "roomName") && truthy (field d "participantName") = true ->
    configured env = true ->
    access_token (posted_token env d) = Ret tt ->
    to_jwt (posted_token env d) = Ret jwt ->
    post_path env req
      (Ret (jsonify [("serverUrl",
                      JStr (default_or "ws://localhost:7880" (env !! "LIVEKIT_URL")));
                     ("roomName", field d "roomName");
                     ("participantName", field d "participantName");
                     ("participantToken", JStr jwt)] 200),
       (config_reads ++ [TokenBuild (posted_token env d);
                        TokenSign (posted_token env d);
                        LogInfo [Lit "Generated token for participant '";
                                 Fmt (field d "participantName");
                                 Lit "' in room '";
                                 Fmt (field d "roomName"); Lit "'"]])%list).

(** Every way [getToken] can run for a room and a participant. *)
Inductive legacy_path {lk : LiveKitApi} (env : gmap string string)
    (room_name participant_name : string) : M Response -> Prop :=
| legacy_config :
    configured env = false ->
    legacy_path env room_name participant_name (Ret err_config, credential_reads)
| legacy_build_raises e :
    configured env = true ->
    access_token (legacy_token env room_name participant_name) = Raise e ->
    legacy_path env room_name participant_name
      (Ret err_internal,
       (credential_reads ++
        [TokenBuild (legacy_token env room_name participant_name);
         LogError [Lit "Error in legacy token endpoint: "; Lit (exn_msg e)]])%list)
| legacy_sign_raises e :
    configured env = true ->
    access_token (legacy_token env room_name participant_name) = Ret tt ->
    to_jwt (legacy_token env room_name participant_name) = Raise e ->
    legacy_path env room_name participant_name
      (Ret err_internal,
       (credential_reads ++
        [TokenBuild (legacy_token env room_name participant_name);
         TokenSign (legacy_token env room_name participant_name);
         LogError [Lit "Error in legacy token endpoint: "; Lit (exn_msg e)]])%list)
| legacy_issued jwt :
    configured env = true ->
    access_token (legacy_token env room_name participant_name) = Ret tt ->
    to_jwt (legacy_token env room_name participant_name) = Ret jwt ->
    legacy_path env room_name participant_name
      (Ret (text_response jwt),
       (credential_reads ++
        [TokenBuild (legacy_token env room_name participant_name);
         TokenSign (legacy_token env room_name participant_name)])%list).

(** ** Keywords that are not passed *)

(** [api.VideoGrants] is a dataclass of the livekit library, which is
    not part of this repository: a keyword the call does not pass takes
    the default of the dataclass.  [with_defaults dflt g] is the
    instance the call [g] makes when the defaults are [dflt]. *)
Definition passed_or {A} (passed dflt : option A) : option A :=
  match passed with
  | Some a => Some a
  | None => dflt
  end.

Definition with_defaults (dflt g : VideoGrants) : VideoGrants :=
  {| room_join := passed_or (room_join g) (room_join dflt);
     room := passed_or (room g) (room dflt);
     can_publish := passed_or (can_publish g) (can_publish dflt);
     can_subscribe := passed_or (can_subscribe g) (can_subscribe dflt);
     can_publish_data := passed_or (can_publish_data g) (can_publish_data dflt) |}.

(** The defaults livekit-api declares for these five fields:
    [room_join: Optional[bool] = None], [room: str = ""], and [True] for
    [can_publish], [can_subscribe] and [can_publish_data]. *)
Definition livekit_defaults : VideoGrants :=
  {| room_join := None;
     room := Some (JStr "");
     can_publish := Some true;
     can_subscribe := Some true;
     can_publish_data := Some true |}.

(** ** Reading a trace *)

(** The calls into the livekit library among the events of a run. *)
Definition is_token_event (ev : event) : bool :=
  match ev with
  | TokenBuild _ | TokenSign _ => true
  | _ => false
  end.

Definition token_events (tr : list event) : list event := filter is_token_event tr.

(** The log records among the events of a run. *)
Definition is_log (ev : event) : bool :=
  match ev with
  | LogInfo _ | LogError _ => true
  | _ => false
  end.

Definition log_records (tr : list event) : list event := filter is_log tr.

(** The environment variables a run read, in order. *)
Definition env_reads (tr : list event) : list string :=
  omap (fun ev => match ev with EnvRead k => Some k | _ => None end) tr.

(** Two environments that agree on the three variables the handlers
    name. *)
Definition same_config (env1 env2 : gmap string string) : Prop :=
  env1 !! "LIVEKIT_API_KEY" = env2 !! "LIVEKIT_API_KEY" /\
  env1 !! "LIVEKIT_API_SECRET" = env2 !! "LIVEKIT_API_SECRET" /\
  env1 !! "LIVEKIT_URL" = env2 !! "LIVEKIT_URL".

(** ** The test script (test_server.py) *)

(** What the script sees of a [requests] response: [status_code], the
    outcome of [json()], and [text]. *)
Record HttpResponse : Type := mkHttpResponse {
  status_code : nat;
  json_of : outcome json;
  text : string
}.

(** The [requests] library as the script uses it: [get(url, timeout)],
    [post(url, headers, json, timeout)], and whether an exception is an
    instance of [requests.exceptions.ConnectionError], of
    [requests.exceptions.Timeout]. *)
Class Requests : Type := {
  requests_get : string -> nat -> outcome HttpResponse;
  requests_post : string -> list (string * string) -> json -> nat -> outcome HttpResponse;
  is_connection_error : exn -> bool;
  is_timeout : exn -> bool
}.

(** The pieces of a printed line: literal text, a number, the [str] of a
    value, and [json.dumps(v, indent=2)]. *)
Inductive piece : Type :=
| PLit (s : string)
| PNat (n : nat)
| PRepr (v : json)
| PDumps (v : json).

Inductive script_event : Type :=
| Print (line : list piece)
| HttpGet (url : string) (timeout : nat)
| HttpPost (url : string) (headers : list (string * string)) (data : json) (timeout : nat).

(** The script's computations: an outcome and what was printed and
    requested, oldest first. *)
Definition Script (A : Type) : Type := outcome A * list script_event.

Definition sret {A} (a : A) : Script A := (Ret a, []).
Definition sprint (line : list piece) : Script unit := (Ret tt, [Print line]).
Definition slift {A} (o : outcome A) : Script A := (o, []).

Definition sbind {A B} (m : Script A) (k : A -> Script B) : Script B :=
  match m with
  | (Ret a, out) => let '(o, out') := k a in (o, (out ++ out')%list)
  | (Raise e, out) => (Raise e, out)
  end.

Definition stry {A} (m : Script A) (h : exn -> Script A) : Script A :=
  match m with
  | (Ret a, out) => (Ret a, out)
  | (Raise e, out) => let '(o, out') := h e in (o, (out ++ out')%list)
  end.

Notation "'call' x <- m ; k" := (sbind m (fun x => k))
  (at level 10, x name, m at level 100, k at level 200).
Notation "'exec' m ; k" := (sbind m (fun _ => k))
  (at level 10, m at level 100, k at level 200).

(** [sub in s] on strings. *)
Fixpoint contains (sub s : string) : bool :=
  String.prefix sub s
  || match s with
     | EmptyString => false
     | String _ rest => contains sub rest
     end.

(** [key in v], for a string [key]: a key of a dict, an element of a
    list, a substring of a string; a [TypeError] on anything else. *)
Definition py_in (key : string) (v : json) : outcome bool :=
  match v with
  | JDict d => Ret (bool_decide (is_Some (lookup_key key d)))
  | JList l => Ret (existsb (fun x => match x with
                                      | JStr s => String.eqb key s
                                      | _ => false
                                      end) l)
  | JStr s => Ret (contains key s)
  | _ => Raise (Exn "TypeError"
                  ("argument of type '" ++ type_name v ++ "' is not iterable"))
  end.

(** [[field for field in fields if field not in v]] *)
Fixpoint missing_from (v : json) (fields : list string) : outcome (list string) :=
  match fields with
  | [] => Ret []
  | f :: rest =>
      match py_in f v with
      | Raise e => Raise e
      | Ret present =>
          match missing_from v rest with
          | Raise e => Raise e
          | Ret l => Ret (if present then l else f :: l)
          end
      end
  end.

(** [v.count('.')]: the dots of a string, the elements ['.'] of a list;
    an [AttributeError] on anything else. *)
Definition py_count_dot (v : json) : outcome nat :=
  match v with
  | JStr s => Ret (count_dots s)
  | JList l => Ret (length (List.filter (fun x => match x with
                                             | JStr s => String.eqb s "."
                                             | _ => false
                                             end) l))
  | _ => Raise (Exn "AttributeError"
                  ("'" ++ type_name v ++ "' object has no attribute 'count'"))
  end.

Definition newline : string := String (ascii_of_nat 10) EmptyString.

Definition required_fields : list string :=
  ["serverUrl"; "roomName"; "participantName"; "participantToken"].

Section TestScript.
Context {rq : Requests}.

Definition http_get (url : string) (timeout : nat) : Script HttpResponse :=
  exec (Ret tt, [HttpGet url timeout]); slift (requests_get url timeout).

Definition http_post (url : string) (headers : list (string * string)) (data : json)
    (timeout : nat) : Script HttpResponse :=
  exec (Ret tt, [HttpPost url headers data timeout]);
  slift (requests_post url headers data timeout).

(** The checks on a token response with status 200. *)
Definition check_token_response (token_response : HttpResponse) : Script unit :=
  call result <- slift (json_of token_response);
  exec sprint [PLit "✅ Token generation successful!"];
  exec sprint [PLit (newline ++ "Response:")];
  exec sprint [PDumps result];
  call missing_fields <- slift (missing_from result required_fields);
  exec (if negb (length missing_fields =? 0)%nat
        then sprint [PLit "⚠️  Missing fields in response: ";
                     PRepr (JList (map JStr missing_fields))]
        else sprint [PLit "✅ All required fields present in response"]);
  call token <- slift (fst (py_get result "participantToken" (JStr "")));
  call dots <- slift (py_count_dot token);
  if (dots =? 2)%nat
  then sprint [PLit "✅ Token appears to be valid JWT format"]
  else sprint [PLit "⚠️  Token doesn't appear to be valid JWT format"].

(** The [try] block of [test_token_server]. *)
Definition test_token_server_try (server_url : string) (data : json) : Script unit :=
  exec sprint [PLit "1. Testing health endpoint..."];
  call health_response <- http_get (server_url ++ "/health") 5;
  exec sprint [PLit "Health check status: "; PNat (status_code health_response)];
  if negb (status_code health_response =? 200)%nat
  then sprint [PLit "❌ Health check failed"]
  else
  exec sprint [PLit "✅ Health check passed"];
  exec sprint [PLit (newline ++ "2. Testing token generation...")];
  call token_response <-
    http_post (server_url ++ "/token") [("Content-Type", "application/json")] data 10;
  exec sprint [PLit "Token generation status: "; PNat (status_code token_response)];
  if (status_code token_response =? 200)%nat
  then check_token_response token_response
  else
    exec sprint [PLit "❌ Token generation failed"];
    sprint [PLit "Response: "; PLit (text token_response)].

Definition test_token_server : Script unit :=
  let server_url := "http://localhost:8080" in
  exec sprint [PLit "Testing LiveKit Token Server..."];
  exec sprint [PLit "Server URL: "; PLit server_url];
  exec sprint [PLit "Test data: "; PRepr test_data];
  exec sprint [PLit "--------------------------------------------------"];
  stry (test_token_server_try server_url test_data)
    (fun e =>
       if is_connection_error e
       then sprint [PLit "❌ Could not connect to token server. Make sure it's running on port 8080."]
       else if is_timeout e
       then sprint [PLit "❌ Request timed out. Server might be overloaded."]
       else sprint [PLit "❌ Unexpected error: "; PLit (exn_msg e)]).

End TestScript.

(** What a run of the script printed, and the requests it made. *)
Definition printed {A} (m : Script A) : list (list piece) :=
  omap (fun ev => match ev with Print l => Some l | _ => None end) (snd m).

Definition posts {A} (m : Script A) : list script_event :=
  List.filter (fun ev => match ev with HttpPost _ _ _ _ => true | _ => false end) (snd m).

(** The banner every run starts with. *)
Definition banner : list (list piece) :=
  [[PLit "Testing LiveKit Token Server..."];
   [PLit "Server URL: "; PLit "http://localhost:8080"];
   [PLit "Test data: "; PRepr test_data];
   [PLit "--------------------------------------------------"]].

(** A [requests] response carries the answer of a handler: it has the
    same status, and when the answer is a JSON object, [json()] returns
    an object with the same items.  Their order may differ: [jsonify]
    does not promise to keep it (by default it sorts the keys). *)
Definition carries (m : M Response) (resp : HttpResponse) : Prop :=
  exists r, answer m = Some r /\
    status_code resp = status r /\
    forall d, content r = JsonBody (JDict d) ->
      exists d', json_of resp = Ret (JDict d') /\ Permutation d d'.

(** The two requests of the script reach the handlers of this server:
    its GET /health and its POST /token on http://localhost:8080 return
    what the handlers answer, the posted [test_data] being the body
    [get_json] yields. *)
Definition reaches_server {lk : LiveKitApi} (env : gmap string string)
    (rq : Requests) : Prop :=
  (exists resp,
     requests_get "http://localhost:8080/health" 5 = Ret resp /\
     carries (handle env Health (query [])) resp) /\
  (exists resp,
     requests_post "http://localhost:8080/token" [("Content-Type", "application/json")]
       test_data 10 = Ret resp /\
     carries (handle env Token (post test_data)) resp).

(** A client that calls the handlers directly.  It raises a connection
    error on any other URL; the text of a JSON answer is not rendered. *)
Definition http_of (m : M Response) : outcome HttpResponse :=
  match fst m with
  | Ret r =>
      Ret {| status_code := status r;
             json_of := match content r with
                        | JsonBody j => Ret j
                        | TextBody _ => Raise (Exn "JSONDecodeError" "Expecting value")
                        end;
             text := match content r with
                     | JsonBody _ => "{...}"
                     | TextBody s => s
                     end |}
  | Raise e => Raise e
  end.

Definition direct_client (lk : LiveKitApi) (env : gmap string string) : Requests :=
  {| requests_get := fun url _ =>
       if String.eqb url "http://localhost:8080/health"
       then http_of (handle env Health (query []))
       else Raise (Exn "ConnectionError" "Connection refused");
     requests_post := fun url _ data _ =>
       if String.eqb url "http://localhost:8080/token"
       then http_of (handle env Token (post data))
       else Raise (Exn "ConnectionError" "Connection refused");
     is_connection_error := fun e =>
       String.eqb (exn_type e) "ConnectionError" || String.eqb (exn_type e) "ConnectTimeout";
     is_timeout := fun e =>
       String.eqb (exn_type e) "Timeout" || String.eqb (exn_type e) "ConnectTimeout"
       || String.eqb (exn_type e) "ReadTimeout" |}.

(** A client in front of the handlers whose [json()] returns every
    object with its keys sorted, the way [jsonify] sends them by
    default. *)
Fixpoint insert_item (kv : string * json) (l : list (string * json))
    : list (string * json) :=
  match l with
  | [] => [kv]
  | kv' :: rest =>
      if String.leb (fst kv) (fst kv') then kv :: l else kv' :: insert_item kv rest
  end.

Definition sort_items (l : list (string * json)) : list (string * json) :=
  fold_right insert_item [] l.

Fixpoint sort_keys (v : json) : json :=
  match v with
  | JList l => JList (map sort_keys l)
  | JDict d => JDict (sort_items (map (fun kv => (fst kv, sort_keys (snd kv))) d))
  | _ => v
  end.

Definition sorted_http_of (m : M Response) : outcome HttpResponse :=
  match fst m with
  | Ret r =>
      Ret {| status_code := status r;
             json_of := match content r with
                        | JsonBody j => Ret (sort_keys j)
                        | TextBody _ => Raise (Exn "JSONDecodeError" "Expecting value")
                        end;
             text := match content r with
                     | JsonBody _ => "{...}"
                     | TextBody s => s
                     end |}
  | Raise e => Raise e
  end.

Definition sorting_client (lk : LiveKitApi) (env : gmap string string) : Requests :=
  {| requests_get := fun url _ =>
       if String.eqb url "http://localhost:8080/health"
       then sorted_http_of (handle env Health (query []))
       else Raise (Exn "ConnectionError" "Connection refused");
     requests_post := fun url _ data _ =>
       if String.eqb url "http://localhost:8080/token"
       then sorted_http_of (handle env Token (post data))
       else Raise (Exn "ConnectionError" "Connection refused");
     is_connection_error := fun e =>
       String.eqb (exn_type e) "ConnectionError" || String.eqb (exn_type e) "ConnectTimeout";
     is_timeout := fun e =>
       String.eqb (exn_type e) "Timeout" || String.eqb (exn_type e) "ConnectTimeout"
       || String.eqb (exn_type e) "ReadTimeout" |}.

(** A client with no server behind it, and one whose server is not
    healthy. *)
Definition refused_client : Requests :=
  {| requests_get := fun _ _ => Raise (Exn "ConnectTimeout" "timed out");
     requests_post := fun _ _ _ _ => Raise (Exn "ConnectTimeout" "timed out");
     is_connection_error := fun e =>
       String.eqb (exn_type e) "ConnectionError" || String.eqb (exn_type e) "ConnectTimeout";
     is_timeout := fun e =>
       String.eqb (exn_type e) "Timeout" || String.eqb (exn_type e) "ConnectTimeout"
       || String.eqb (exn_type e) "ReadTimeout" |}.

Definition unhealthy_client : Requests :=
  {| requests_get := fun _ _ =>
       Ret {| status_code := 503; json_of := Raise (Exn "JSONDecodeError" "Expecting value");
              text := "Service Unavailable" |};
     requests_post := fun _ _ _ _ =>
       Ret {| status_code := 200; json_of := Ret JNull; text := "null" |};
     is_connection_error := fun _ => false;
     is_timeout := fun _ => false |}.

(** * Properties *)

(** ** Truthiness *)

Lemma nonempty_str_truthy v : nonempty_str v = true -> truthy v = true.
Proof. destruct v; simpl; congruence. Qed.

Lemma absent_or_empty_falsy d key :
  absent_or_empty (lookup_key key d) = true -> truthy (field d key) = false.
Proof.
  unfold field. destruct (lookup_key key d) as [[]|]; simpl; try congruence.
  intros ->. reflexivity.
Qed.

Lemma truthy_dict_nonempty d : truthy (JDict d) = true <-> d <> [].
Proof. destruct d; simpl; split; congruence. Qed.

Lemma truthy_str_inv o :
  truthy_str o = true -> exists s, o = Some s /\ s <> "".
Proof.
  destruct o as [s|]; simpl; [|discriminate].
  destruct s; simpl; [discriminate|]. intros _. eexists; split; [reflexivity|discriminate].
Qed.

(** ** Each run of a handler follows one of its paths *)

Lemma generate_token_path {lk : LiveKitApi} env req :
  post_path env req (generate_token env req).
Proof.
  unfold generate_token, generate_token_try.
  destruct (get_json req) as [data|e] eqn:Hbody; cbn.
  2: { now apply post_body_raises. }
  destruct (truthy data) eqn:Hdata; cbn.
  2: { now apply (post_no_json env req data). }
  destruct data as [ | b | n | f | s | l | d ]; cbn;
    try (apply (post_not_dict env req _ Hbody Hdata); discriminate).
  fold (field d "roomName") (field d "participantName").
  destruct (truthy (field d "roomName") && truthy (field d "participantName")) eqn:Hnames.
  2: { apply andb_false_iff in Hnames as Hn.
       replace (negb (truthy (field d "roomName")) || negb (truthy (field d "participantName")))
         with true by (destruct Hn as [-> | ->]; cbn; now rewrite ?orb_true_r).
       cbn. apply (post_required env req d Hbody); [now apply truthy_dict_nonempty | exact Hnames]. }
  apply andb_true_iff in Hnames as Hn. destruct Hn as [Hr Hp]. rewrite Hr, Hp. cbn.
  fold (posted_token env d).
  destruct (configured env) eqn:Hcfg; unfold configured in Hcfg.
  2: { apply andb_false_iff in Hcfg as Hc.
       replace (negb (truthy_str (env !! "LIVEKIT_API_KEY"))
                || negb (truthy_str (env !! "LIVEKIT_API_SECRET")))
         with true by (destruct Hc as [-> | ->]; cbn; now rewrite ?orb_true_r).
       cbn. now apply (post_config env req d). }
  apply andb_true_iff in Hcfg as Hc. destruct Hc as [Hk Hs]. rewrite Hk, Hs. cbn.
  destruct (access_token (posted_token env d)) as [[]|e] eqn:Hbuild; cbn.
  2: { now apply (post_build_raises env req d e). }
  destruct (to_jwt (posted_token env d)) as [jwt|e] eqn:Hsign; cbn.
  2: { now apply (post_sign_raises env req d e). }
  now apply (post_issued env req d jwt).
Qed.

Lemma getToken_path {lk : LiveKitApi} env req :
  legacy_path env (args_get (args req) "room" "my-room")
    (args_get (args req) "participant" "anonymous") (getToken env req).
Proof.
  unfold getToken, getToken_try.
  set (rn := args_get (args req) "room" "my-room").
  set (pn := args_get (args req) "participant" "anonymous").
  cbn. fold (legacy_token env rn pn).
  destruct (configured env) eqn:Hcfg; unfold configured in Hcfg.
  2: { apply andb_false_iff in Hcfg as Hc.
       replace (negb (truthy_str (env !! "LIVEKIT_API_KEY"))
                || negb (truthy_str (env !! "LIVEKIT_API_SECRET")))
         with true by (destruct Hc as [-> | ->]; cbn; now rewrite ?orb_true_r).
       cbn. now apply legacy_config. }
  apply andb_true_iff in Hcfg as Hc. destruct Hc as [Hk Hs]. rewrite Hk, Hs. cbn.
  destruct (access_token (legacy_token env rn pn)) as [[]|e] eqn:Hbuild; cbn.
  2: { now apply legacy_build_raises. }
  destruct (to_jwt (legacy_token env rn pn)) as [jwt|e] eqn:Hsign; cbn.
  2: { now apply legacy_sign_raises. }
  now apply legacy_issued.
Qed.

Ltac on_post_paths env req :=
  let P := fresh "P" in
  pose proof (generate_token_path env req) as P;
  inversion P;
  match goal with
  | E : _ = generate_token env req |- _ => rewrite <- E in *; clear E
  end.

Ltac on_legacy_paths env req :=
  let P := fresh "P" in
  pose proof (getToken_path env req) as P;
  inversion P;
  match goal with
  | E : _ = getToken env req |- _ => rewrite <- E in *; clear E
  end.

(** Membership in a concrete trace: split it into the equalities of its
    events. *)
Ltac in_trace H :=
  unfold trace, config_reads, credential_reads in H; cbn in H;
  repeat (destruct H as [H|H]; [try discriminate H|]); try contradiction.

Lemma truthy_JStr s : truthy (JStr s) = true -> s <> "".
Proof. destruct s; simpl; [discriminate|]. intros _. discriminate. Qed.

(** ** Signing is guarded *)

(** A 200 answer of a token route comes from a run that reached the
    signing call. *)
Lemma produced_token_was_signed {lk : LiveKitApi} env r req :
  token_produced r (handle env r req) -> signing_reached (handle env r req).
Proof.
  intros [Hr (resp & Hans & Hst)]. unfold signing_reached.
  destruct r; [congruence| |]; cbn [handle] in *.
  - on_post_paths env req; cbn in Hans; injection Hans as <-; cbn in Hst;
      try discriminate.
    eexists. unfold trace; cbn. do 4 right. left. reflexivity.
  - on_legacy_paths env req; cbn in Hans; injection Hans as <-; cbn in Hst;
      try discriminate.
    eexists. unfold trace; cbn. do 3 right. left. reflexivity.
Qed.

(** C1 (as amended).  Whenever a run of a route produces a token or
    reaches the signing call, the signing call was reached, and every
    token it was reached with carries the key id and the secret of the
    configuration, both set and not empty; on POST /token that token
    moreover has the room name and the participant name of a posted
    dict, both truthy (so a name that is a string is not empty). *)
Theorem signing_call_guarded {lk : LiveKitApi} env r req :
  token_produced r (handle env r req) \/ signing_reached (handle env r req) ->
  signing_reached (handle env r req) /\
  forall t, In (TokenSign t) (trace (handle env r req)) ->
    tok_api_key t = env !! "LIVEKIT_API_KEY" /\
    tok_api_secret t = env !! "LIVEKIT_API_SECRET" /\
    truthy_str (tok_api_key t) = true /\
    truthy_str (tok_api_secret t) = true /\
    (r = Token ->
     exists d, get_json req = Ret (JDict d) /\
       room (tok_grants t) = Some (field d "roomName") /\
       tok_name t = field d "participantName" /\
       truthy (field d "roomName") = true /\
       truthy (field d "participantName") = true /\
       (forall s, field d "roomName" = JStr s -> s <> "") /\
       (forall s, field d "participantName" = JStr s -> s <> "")).
Proof.
  intros H. split.
  { destruct H as [H|H]; [now apply produced_token_was_signed | exact H]. }
  clear H. intros t Ht.
  destruct r; cbn [handle] in *.
  - in_trace Ht.
  - on_post_paths env req; in_trace Ht;
      injection Ht as <-;
      match goal with
      | Hc : configured env = true, Hn : _ && _ = true |- _ =>
          apply andb_true_iff in Hc as [Hk Hs];
          apply andb_true_iff in Hn as [Hrn Hpn]
      end;
      (repeat split; try assumption; try reflexivity; intros _;
       exists d; repeat split; try assumption; try reflexivity;
       intros s Hs'; apply truthy_JStr; rewrite <- Hs'; assumption).
  - on_legacy_paths env req; in_trace Ht;
      injection Ht as <-;
      match goal with
      | Hc : configured env = true |- _ => apply andb_true_iff in Hc as [Hk Hs]
      end;
      (repeat split; try assumption; try reflexivity; discriminate).
Qed.

Lemma signing_call_guarded_witness :
  token_produced Token (handle (lk := signing_api) env_ok Token (post test_data)) /\
  signing_reached (handle (lk := signing_api) env_ok Token (post test_data)) /\
  forall t,
    In (TokenSign t) (trace (handle (lk := signing_api) env_ok Token (post test_data))) ->
    truthy_str (tok_api_key t) = true /\
    truthy_str (tok_api_secret t) = true /\
    room (tok_grants t) = Some (JStr "test-room") /\
    tok_name t = JStr "test-participant".
Proof.
  assert (Hp : token_produced Token
                 (handle (lk := signing_api) env_ok Token (post test_data))).
  { split; [discriminate|]. eexists. split; [vm_compute; reflexivity | reflexivity]. }
  split; [exact Hp|].
  destruct (signing_call_guarded (lk := signing_api) env_ok Token (post test_data)
              (or_introl Hp)) as [Hs Hall].
  split; [exact Hs|].
  intros t Ht. destruct (Hall t Ht) as (_ & _ & Hk & Hsec & Hd).
  destruct (Hd eq_refl) as (d & Hbody & Hroom & Hname & _).
  injection Hbody as <-.
  repeat split; assumption.
Defined.

(** C1 (as stated) fails.  GET /getToken?room=&participant= reaches the
    signing call with an empty room name and an empty participant name,
    whether the library then refuses the token or signs it; and POST
    /token with roomName 5 and participantName true reaches it with names
    that are no strings. *)
Lemma signing_reached_without_names :
  (In (TokenSign (legacy_token env_ok "" ""))
      (trace (handle (lk := strict_api) env_ok GetTokenLegacy
                (query [("room", ""); ("participant", "")]))) /\
   In (TokenSign (legacy_token env_ok "" ""))
      (trace (handle (lk := signing_api) env_ok GetTokenLegacy
                (query [("room", ""); ("participant", "")]))) /\
   answer (handle (lk := signing_api) env_ok GetTokenLegacy
             (query [("room", ""); ("participant", "")]))
   = Some (text_response "aGVhZGVy.Y2xhaW1z.c2lnbmF0dXJl") /\
   named_and_configured (legacy_token env_ok "" "") = false) /\
  (In (TokenSign (posted_token env_ok
                    [("roomName", JInt 5); ("participantName", JBool true)]))
      (trace (handle (lk := signing_api) env_ok Token
                (post (JDict [("roomName", JInt 5); ("participantName", JBool true)])))) /\
   named_and_configured
     (posted_token env_ok [("roomName", JInt 5); ("participantName", JBool true)])
   = false).
Proof.
  repeat split; try (vm_compute; reflexivity);
    vm_compute; tauto.
Qed.

(** Two readings of the body of one request agree. *)
Ltac same_body :=
  match goal with
  | H1 : get_json ?r = _, H2 : get_json ?r = _ |- _ =>
      rewrite H1 in H2; try discriminate H2;
      try (injection H2 as H2; subst)
  end.

(** ** Validation comes first *)

(** C2 (as stated) fails.  The empty object has no roomName, yet the
    answer to it is the no-JSON answer, which is not the answer that
    names the required fields. *)
Lemma empty_object_not_required_error :
  absent_or_empty (lookup_key "roomName" []) = true /\
  generate_token (lk := signing_api) env_ok (post (JDict []))
  = (Ret {| status := 400;
            content := JsonBody (JDict [("error", JStr "No JSON data provided")]) |}, []) /\
  {| status := 400; content := JsonBody (JDict [("error", JStr "No JSON data provided")]) |}
  <> {| status := 400;
        content := JsonBody (JDict [("error", JStr "roomName and participantName are required")]) |}.
Proof.
  split; [reflexivity|]. split; [vm_compute; reflexivity | discriminate].
Qed.

(** C2 (as amended).  When the posted body is a JSON object in which
    roomName or participantName is absent or the empty string, the run
    performs no effect at all: it reads no configuration, makes no call
    into the livekit library, and does not answer with the configuration
    error; and when the object is not empty the answer is 400 with the
    message that both names are required. *)
Theorem missing_names_rejected {lk : LiveKitApi} env req d :
  get_json req = Ret (JDict d) ->
  absent_or_empty (lookup_key "roomName" d)
  || absent_or_empty (lookup_key "participantName" d) = true ->
  (d <> [] ->
   answer (generate_token env req)
   = Some {| status := 400;
             content := JsonBody (JDict [("error",
                          JStr "roomName and participantName are required")]) |}) /\
  trace (generate_token env req) = [] /\
  no_config_read (generate_token env req) /\
  no_token_call (generate_token env req) /\
  answer (generate_token env req)
  <> Some {| status := 500;
             content := JsonBody (JDict [("error", JStr "Server configuration error")]) |}.
Proof.
  intros Hbody Hmiss.
  assert (Hfalsy : truthy (field d "roomName") && truthy (field d "participantName") = false).
  { apply orb_true_iff in Hmiss as [H|H]; apply absent_or_empty_falsy in H; rewrite H;
      [reflexivity | apply andb_false_r]. }
  assert (Hrun : generate_token env req = (Ret err_no_json, []) /\ d = [] \/
                 generate_token env req = (Ret err_required, []) /\ d <> []).
  { on_post_paths env req; same_body;
      try match goal with
          | H : _ && _ = true |- _ => rewrite Hfalsy in H; discriminate H
          | H : forall d', JDict ?x <> JDict d' |- _ => now destruct (H x)
          end.
    - left. split; [reflexivity|]. destruct d; [reflexivity | discriminate].
    - right. split; [reflexivity | assumption]. }
  assert (Htr : trace (generate_token env req) = []).
  { destruct Hrun as [[-> _]|[-> _]]; reflexivity. }
  split; [|split; [exact Htr|]].
  { intros Hne. destruct Hrun as [[_ ->]|[-> _]]; [contradiction | reflexivity]. }
  split; [|split].
  - intros key. rewrite Htr. intros [].
  - intros t. rewrite Htr. split; intros [].
  - destruct Hrun as [[-> _]|[-> _]]; discriminate.
Qed.

Lemma missing_names_rejected_witness :
  answer (generate_token (lk := signing_api) env_no_secret
            (post (JDict [("roomName", JStr ""); ("participantIdentity", JStr "bob")])))
  = Some {| status := 400;
            content := JsonBody (JDict [("error",
                         JStr "roomName and participantName are required")]) |} /\
  trace (generate_token (lk := signing_api) env_no_secret
           (post (JDict [("roomName", JStr ""); ("participantIdentity", JStr "bob")]))) = [].
Proof.
  destruct (missing_names_rejected (lk := signing_api) env_no_secret
              (post (JDict [("roomName", JStr ""); ("participantIdentity", JStr "bob")]))
              [("roomName", JStr ""); ("participantIdentity", JStr "bob")]
              eq_refl eq_refl) as (Hans & Htr & _).
  split; [apply Hans; discriminate | exact Htr].
Defined.

(** ** Configuration errors *)

Lemma truthy_str_false o : truthy_str o = false <-> o = None \/ o = Some "".
Proof.
  destruct o as [[|c s]|]; simpl; split; intros H; auto; try discriminate.
  destruct H as [H|H]; discriminate.
Qed.

(** C3.  When LIVEKIT_API_KEY or LIVEKIT_API_SECRET is unset or empty
    ([truthy_str] is false exactly then, [truthy_str_false]), a POST
    /token whose body has non-empty strings for roomName and
    participantName, and every GET /getToken, is answered 500 with the
    configuration error, and the run makes no call into the livekit
    library. *)
Theorem missing_credentials_rejected {lk : LiveKitApi} env req :
  truthy_str (env !! "LIVEKIT_API_KEY") = false
  \/ truthy_str (env !! "LIVEKIT_API_SECRET") = false ->
  (forall d,
     get_json req = Ret (JDict d) ->
     nonempty_str (field d "roomName") = true ->
     nonempty_str (field d "participantName") = true ->
     answer (generate_token env req)
     = Some {| status := 500;
               content := JsonBody (JDict [("error", JStr "Server configuration error")]) |}
     /\ no_token_call (generate_token env req)) /\
  (answer (getToken env req)
   = Some {| status := 500;
             content := JsonBody (JDict [("error", JStr "Server configuration error")]) |}
   /\ no_token_call (getToken env req)).
Proof.
  intros Hcfg.
  assert (Hc : configured env = false).
  { unfold configured. destruct Hcfg as [-> | ->]; [reflexivity | apply andb_false_r]. }
  split.
  - intros d Hbody Hrn Hpn.
    apply nonempty_str_truthy in Hrn, Hpn.
    on_post_paths env req; same_body; try congruence;
      try match goal with
          | H : _ && _ = false |- _ => rewrite Hrn, Hpn in H; discriminate H
          | H : forall d', JDict ?x <> JDict d' |- _ => now destruct (H x)
          | H : truthy (JDict ?x) = false |- _ =>
              destruct x; [discriminate Hrn | discriminate H]
          end.
    split; [reflexivity|].
    intros t; split; intros Ht; in_trace Ht.
  - on_legacy_paths env req; try congruence.
    split; [reflexivity|].
    intros t; split; intros Ht; in_trace Ht.
Qed.

Lemma missing_credentials_rejected_witness :
  answer (generate_token (lk := signing_api) env_no_secret (post test_data))
  = Some {| status := 500;
            content := JsonBody (JDict [("error", JStr "Server configuration error")]) |} /\
  answer (getToken (lk := signing_api) env_no_secret (query []))
  = Some {| status := 500;
            content := JsonBody (JDict [("error", JStr "Server configuration error")]) |}.
Proof.
  split.
  - destruct (missing_credentials_rejected (lk := signing_api) env_no_secret
                (post test_data) (or_intror eq_refl)) as [Hpost _].
    exact (proj1 (Hpost _ eq_refl eq_refl eq_refl)).
  - destruct (missing_credentials_rejected (lk := signing_api) env_no_secret
                (query []) (or_intror eq_refl)) as [_ [Hget _]].
    exact Hget.
Defined.

(** ** The token that is built *)

(** C4.  For a posted object whose roomName and participantName are
    non-empty strings, under a complete configuration, the run builds
    exactly one token: its display name is participantName; its identity
    is participantName when the object has no participantIdentity, and
    the value of participantIdentity when it has one.  When the library
    builds and signs that token, the answer is 200. *)
Theorem identity_defaults_to_name {lk : LiveKitApi} env req d :
  get_json req = Ret (JDict d) ->
  nonempty_str (field d "roomName") = true ->
  nonempty_str (field d "participantName") = true ->
  configured env = true ->
  exists t,
    In (TokenBuild t) (trace (generate_token env req)) /\
    (forall t', In (TokenBuild t') (trace (generate_token env req))
                \/ In (TokenSign t') (trace (generate_token env req)) -> t' = t) /\
    tok_name t = field d "participantName" /\
    (lookup_key "participantIdentity" d = None ->
     tok_identity t = field d "participantName") /\
    (forall v, lookup_key "participantIdentity" d = Some v -> tok_identity t = v) /\
    (forall jwt, access_token t = Ret tt -> to_jwt t = Ret jwt ->
     In (TokenSign t) (trace (generate_token env req)) /\
     exists resp, answer (generate_token env req) = Some resp /\ status resp = 200).
Proof.
  intros Hbody Hrn Hpn Hcfg.
  apply nonempty_str_truthy in Hrn, Hpn.
  exists (posted_token env d).
  assert (Hid : (lookup_key "participantIdentity" d = None ->
                 tok_identity (posted_token env d) = field d "participantName") /\
                (forall v, lookup_key "participantIdentity" d = Some v ->
                 tok_identity (posted_token env d) = v)).
  { unfold posted_token; cbn. split; [intros -> | intros v ->]; reflexivity. }
  destruct Hid as [Hnone Hsome].
  on_post_paths env req; same_body; try congruence;
    try match goal with
        | H : _ && _ = false |- _ => rewrite Hrn, Hpn in H; discriminate H
        | H : forall d', JDict ?x <> JDict d' |- _ => now destruct (H x)
        | H : truthy (JDict ?x) = false |- _ =>
            destruct x; [discriminate Hrn | discriminate H]
        end.
  all: split; [unfold trace; cbn; tauto|].
  all: split; [intros t' [Ht'|Ht']; in_trace Ht'; congruence|].
  all: split; [reflexivity|].
  all: split; [exact Hnone|].
  all: split; [exact Hsome|].
  all: intros jwt' Hb Hs; try congruence.
  split; [unfold trace; cbn; tauto|].
  eexists; split; reflexivity.
Qed.

Lemma identity_defaults_to_name_witness :
  exists t,
    In (TokenBuild t) (trace (generate_token (lk := signing_api) env_ok (post test_data))) /\
    tok_name t = JStr "test-participant" /\
    tok_identity t = JStr "test-participant" /\
    exists resp,
      answer (generate_token (lk := signing_api) env_ok (post test_data)) = Some resp /\
      status resp = 200.
Proof.
  destruct (identity_defaults_to_name (lk := signing_api) env_ok (post test_data)
              [("roomName", JStr "test-room"); ("participantName", JStr "test-participant")]
              eq_refl eq_refl eq_refl eq_refl)
    as (t & Hin & Honly & Hname & Hnone & _ & Hok).
  exists t. split; [exact Hin|]. split; [exact Hname|]. split; [exact (Hnone eq_refl)|].
  exact (proj2 (Hok _ eq_refl eq_refl)).
Defined.

(** ** The successful answer of POST /token *)

(** C5.  An answer of POST /token that is not an error answer has status
    200 and is a JSON object with the four keys serverUrl, roomName,
    participantName and participantToken, in which roomName and
    participantName are the values posted, serverUrl is LIVEKIT_URL, or
    ws://localhost:7880 when that is unset, and participantToken is what
    [to_jwt] returned; there is no key for the identity. *)
Theorem success_response_shape {lk : LiveKitApi} env req resp :
  answer (generate_token env req) = Some resp ->
  is_error resp = false ->
  status resp = 200 /\
  keys resp = ["serverUrl"; "roomName"; "participantName"; "participantToken"] /\
  exists d server_url jwt,
    get_json req = Ret (JDict d) /\
    (env !! "LIVEKIT_URL" = None -> server_url = "ws://localhost:7880") /\
    (forall u, env !! "LIVEKIT_URL" = Some u -> server_url = u) /\
    (exists t, In (TokenSign t) (trace (generate_token env req)) /\ to_jwt t = Ret jwt) /\
    content resp = JsonBody (JDict [("serverUrl", JStr server_url);
                                    ("roomName", field d "roomName");
                                    ("participantName", field d "participantName");
                                    ("participantToken", JStr jwt)]).
Proof.
  intros Hans Herr.
  on_post_paths env req; cbn in Hans; injection Hans as <-; try discriminate Herr.
  split; [reflexivity|]. split; [reflexivity|].
  exists d, (default_or "ws://localhost:7880" (env !! "LIVEKIT_URL")), jwt.
  split; [assumption|].
  split; [intros ->; reflexivity|].
  split; [intros u ->; reflexivity|].
  split; [|reflexivity].
  exists (posted_token env d). split; [unfold trace; cbn; tauto | assumption].
Qed.

Lemma success_response_shape_witness :
  exists resp,
    answer (generate_token (lk := signing_api) env_with_url
              (post (JDict [("roomName", JStr "test-room");
                            ("participantName", JStr "test-participant");
                            ("participantIdentity", JStr "user-42")]))) = Some resp /\
    is_error resp = false /\
    status resp = 200 /\
    keys resp = ["serverUrl"; "roomName"; "participantName"; "participantToken"].
Proof.
  eexists. split; [vm_compute; reflexivity|]. split; [reflexivity|].
  destruct (success_response_shape (lk := signing_api) env_with_url
              (post (JDict [("roomName", JStr "test-room");
                            ("participantName", JStr "test-participant");
                            ("participantIdentity", JStr "user-42")]))
              _ eq_refl eq_refl) as (Hst & Hkeys & _).
  split; [exact Hst | exact Hkeys].
Defined.

(** ** Grants *)

(** C6 (as stated) fails for GET /getToken.  The call there passes
    room_join and room only, but a keyword that is not passed is not a
    grant that is absent: the dataclass fills it with its default.
    Under the defaults of livekit-api the token GET /getToken signs for
    the default query is granted can_publish, can_subscribe and
    can_publish_data, exactly as a token of POST /token for the same
    room is. *)
Lemma legacy_grants_not_minimal :
  In (TokenSign (legacy_token env_ok "my-room" "anonymous"))
     (trace (getToken (lk := signing_api) env_ok (query []))) /\
  with_defaults livekit_defaults (tok_grants (legacy_token env_ok "my-room" "anonymous"))
  = {| room_join := Some true;
       room := Some (JStr "my-room");
       can_publish := Some true;
       can_subscribe := Some true;
       can_publish_data := Some true |} /\
  with_defaults livekit_defaults (tok_grants (legacy_token env_ok "my-room" "anonymous"))
  = with_defaults livekit_defaults (full_grants (JStr "my-room")).
Proof.
  split; [vm_compute; tauto|]. split; reflexivity.
Qed.

(** C6 (as amended).  Every token that POST /token builds or signs is
    made by a call that passes room_join, the posted room, can_publish,
    can_subscribe and can_publish_data, all true: these are its grants
    whatever the defaults of the dataclass are.  Every token that GET
    /getToken builds or signs is made by a call that passes room_join
    and the room of the query only; can_publish, can_subscribe and
    can_publish_data are not passed, so these three grants are the
    defaults of the dataclass. *)
Theorem grants_passed_by_route {lk : LiveKitApi} env r req t :
  In (TokenBuild t) (trace (handle env r req))
  \/ In (TokenSign t) (trace (handle env r req)) ->
  match r with
  | Health => False
  | Token =>
      exists d, get_json req = Ret (JDict d) /\
        tok_grants t = {| room_join := Some true;
                          room := Some (field d "roomName");
                          can_publish := Some true;
                          can_subscribe := Some true;
                          can_publish_data := Some true |} /\
        forall dflt,
          with_defaults dflt (tok_grants t)
          = {| room_join := Some true;
               room := Some (field d "roomName");
               can_publish := Some true;
               can_subscribe := Some true;
               can_publish_data := Some true |}
  | GetTokenLegacy =>
      tok_grants t = {| room_join := Some true;
                        room := Some (JStr (args_get (args req) "room" "my-room"));
                        can_publish := None;
                        can_subscribe := None;
                        can_publish_data := None |} /\
      forall dflt,
        with_defaults dflt (tok_grants t)
        = {| room_join := Some true;
             room := Some (JStr (args_get (args req) "room" "my-room"));
             can_publish := can_publish dflt;
             can_subscribe := can_subscribe dflt;
             can_publish_data := can_publish_data dflt |}
  end.
Proof.
  intros Ht. destruct r; cbn [handle] in Ht.
  - destruct Ht as [Ht|Ht]; in_trace Ht.
  - on_post_paths env req; destruct Ht as [Ht|Ht]; in_trace Ht;
      injection Ht as <-; exists d;
      (split; [assumption|]); split; reflexivity.
  - on_legacy_paths env req; destruct Ht as [Ht|Ht]; in_trace Ht;
      injection Ht as <-; split; reflexivity.
Qed.

Lemma grants_passed_by_route_witness :
  tok_grants (posted_token env_ok [("roomName", JStr "test-room");
                                   ("participantName", JStr "test-participant")])
  = {| room_join := Some true; room := Some (JStr "test-room");
       can_publish := Some true; can_subscribe := Some true;
       can_publish_data := Some true |} /\
  tok_grants (legacy_token env_ok "my-room" "anonymous")
  = {| room_join := Some true; room := Some (JStr "my-room");
       can_publish := None; can_subscribe := None; can_publish_data := None |} /\
  can_publish (with_defaults livekit_defaults
                 (tok_grants (legacy_token env_ok "my-room" "anonymous")))
  = Some true.
Proof.
  split; [|split].
  - assert (Hin : In (TokenSign (posted_token env_ok
                        [("roomName", JStr "test-room");
                         ("participantName", JStr "test-participant")]))
                     (trace (handle (lk := signing_api) env_ok Token (post test_data)))).
    { vm_compute. tauto. }
    destruct (grants_passed_by_route (lk := signing_api) env_ok Token (post test_data) _
                (or_intror Hin)) as (d & Hbody & Hg & _).
    injection Hbody as <-. exact Hg.
  - assert (Hin : In (TokenSign (legacy_token env_ok "my-room" "anonymous"))
                     (trace (handle (lk := signing_api) env_ok GetTokenLegacy (query [])))).
    { vm_compute. tauto. }
    exact (proj1 (grants_passed_by_route (lk := signing_api) env_ok GetTokenLegacy
                    (query []) _ (or_intror Hin))).
  - assert (Hin : In (TokenSign (legacy_token env_ok "my-room" "anonymous"))
                     (trace (handle (lk := signing_api) env_ok GetTokenLegacy (query [])))).
    { vm_compute. tauto. }
    rewrite (proj2 (grants_passed_by_route (lk := signing_api) env_ok GetTokenLegacy
                      (query []) _ (or_intror Hin)) livekit_defaults).
    reflexivity.
Defined.

(** ** Bodies that are no JSON data *)

(** C7.  The answer 400 "No JSON data provided" is not what a request
    without JSON body gets.  For such a request [request.get_json()]
    does not yield [None], it raises (Flask refuses the content type, or
    fails to parse the empty body); the call stands inside the [try],
    so the exception is caught by [except Exception] and the answer is
    500 "Internal server error", before the test [if not data] is
    reached. *)
Theorem missing_body_is_internal_error {lk : LiveKitApi} env e a :
  generate_token env {| get_json := Raise e; args := a |}
  = (Ret {| status := 500;
            content := JsonBody (JDict [("error", JStr "Internal server error")]) |},
     [LogError [Lit "Error generating token: "; Lit (exn_msg e)]]) /\
  answer (generate_token env {| get_json := Raise e; args := a |})
  <> Some {| status := 400;
             content := JsonBody (JDict [("error", JStr "No JSON data provided")]) |}.
Proof.
  split; [reflexivity | discriminate].
Qed.

(** C10.  When the posted body parses to a falsy value (the empty
    object and null are such values), POST /token answers 400 with "No
    JSON data provided", not with the message that names the required
    fields, although a body was there. *)
Theorem falsy_body_is_no_json {lk : LiveKitApi} env req data :
  get_json req = Ret data ->
  truthy data = false ->
  generate_token env req
  = (Ret {| status := 400;
            content := JsonBody (JDict [("error", JStr "No JSON data provided")]) |}, []) /\
  answer (generate_token env req)
  <> Some {| status := 400;
             content := JsonBody (JDict [("error",
                          JStr "roomName and participantName are required")]) |}.
Proof.
  intros Hbody Hfalsy.
  assert (Hrun : generate_token env req = (Ret err_no_json, [])).
  { unfold generate_token, generate_token_try. rewrite Hbody. cbn. rewrite Hfalsy.
    reflexivity. }
  rewrite Hrun. split; [reflexivity | discriminate].
Qed.

Lemma falsy_body_is_no_json_witness :
  truthy (JDict []) = false /\
  truthy JNull = false /\
  generate_token (lk := signing_api) env_ok (post (JDict []))
  = (Ret {| status := 400;
            content := JsonBody (JDict [("error", JStr "No JSON data provided")]) |}, []) /\
  generate_token (lk := signing_api) env_ok (post JNull)
  = (Ret {| status := 400;
            content := JsonBody (JDict [("error", JStr "No JSON data provided")]) |}, []).
Proof.
  split; [reflexivity|]. split; [reflexivity|]. split.
  - exact (proj1 (falsy_body_is_no_json (lk := signing_api) env_ok (post (JDict []))
                    (JDict []) eq_refl eq_refl)).
  - exact (proj1 (falsy_body_is_no_json (lk := signing_api) env_ok (post JNull)
                    JNull eq_refl eq_refl)).
Defined.

(** ** Failures of the library *)

(** C8.  When, on either token route, building the token or signing it
    raises an exception [e], the handler answers 500 with the error
    "Internal server error", an answer in which nothing of [e] occurs;
    the message of [e] goes to the error log, and the log record is the
    last thing the run does. *)
Theorem library_failure_is_internal_error {lk : LiveKitApi} env r req t e :
  (In (TokenBuild t) (trace (handle env r req)) /\ access_token t = Raise e)
  \/ (In (TokenSign t) (trace (handle env r req)) /\ to_jwt t = Raise e) ->
  answer (handle env r req)
  = Some {| status := 500;
            content := JsonBody (JDict [("error", JStr "Internal server error")]) |} /\
  exists before,
    trace (handle env r req)
    = (before ++ [LogError [Lit (match r with
                                 | Token => "Error generating token: "
                                 | _ => "Error in legacy token endpoint: "
                                 end);
                            Lit (exn_msg e)]])%list.
Proof.
  intros H. destruct r; cbn [handle] in *.
  - destruct H as [[H _]|[H _]]; in_trace H.
  - on_post_paths env req; destruct H as [[Ht He]|[Ht He]]; in_trace Ht;
      injection Ht as <-; try congruence;
      (split; [reflexivity|]);
      match goal with
      | H1 : ?f ?x = Raise ?e1, H2 : ?f ?x = Raise ?e2 |- _ =>
          rewrite H1 in H2; injection H2 as <-
      end.
    + exists (config_reads ++ [TokenBuild (posted_token env d)])%list. reflexivity.
    + exists (config_reads ++ [TokenBuild (posted_token env d);
                               TokenSign (posted_token env d)])%list. reflexivity.
  - on_legacy_paths env req; destruct H as [[Ht He]|[Ht He]]; in_trace Ht;
      injection Ht as <-; try congruence;
      (split; [reflexivity|]);
      match goal with
      | H1 : ?f ?x = Raise ?e1, H2 : ?f ?x = Raise ?e2 |- _ =>
          rewrite H1 in H2; injection H2 as <-
      end.
    + eexists (credential_reads ++ [TokenBuild _])%list. reflexivity.
    + eexists (credential_reads ++ [TokenBuild _; TokenSign _])%list. reflexivity.
Qed.

Lemma library_failure_is_internal_error_witness :
  answer (handle (lk := sign_failing_api (Exn "ValueError" "bad secret"))
            env_ok Token (post test_data))
  = Some {| status := 500;
            content := JsonBody (JDict [("error", JStr "Internal server error")]) |} /\
  answer (handle (lk := build_failing_api (Exn "ValueError" "bad key"))
            env_ok GetTokenLegacy (query [("room", "lobby")]))
  = Some {| status := 500;
            content := JsonBody (JDict [("error", JStr "Internal server error")]) |}.
Proof.
  split.
  - assert (Hin : In (TokenSign (posted_token env_ok
                        [("roomName", JStr "test-room");
                         ("participantName", JStr "test-participant")]))
                     (trace (handle (lk := sign_failing_api (Exn "ValueError" "bad secret"))
                               env_ok Token (post test_data)))).
    { vm_compute. tauto. }
    exact (proj1 (library_failure_is_internal_error
                    (lk := sign_failing_api (Exn "ValueError" "bad secret"))
                    env_ok Token (post test_data) _ (Exn "ValueError" "bad secret")
                    (or_intror (conj Hin eq_refl)))).
  - assert (Hin : In (TokenBuild (legacy_token env_ok "lobby" "anonymous"))
                     (trace (handle (lk := build_failing_api (Exn "ValueError" "bad key"))
                               env_ok GetTokenLegacy (query [("room", "lobby")])))).
    { vm_compute. tauto. }
    exact (proj1 (library_failure_is_internal_error
                    (lk := build_failing_api (Exn "ValueError" "bad key"))
                    env_ok GetTokenLegacy (query [("room", "lobby")]) _
                    (Exn "ValueError" "bad key")
                    (or_introl (conj Hin eq_refl)))).
Defined.

(** ** The legacy route *)

(** C9.  Under a complete configuration GET /getToken builds one token:
    its room is the room parameter, or my-room when the query has none;
    its name and its identity are the participant parameter, or
    anonymous when the query has none.  When the library builds and
    signs that token, the answer is 200 and its body is the string
    [to_jwt] returned, as text and not as a JSON object; that string
    having two dots (three segments), so has the body. *)
Theorem legacy_defaults_and_raw_token {lk : LiveKitApi} env req :
  configured env = true ->
  exists t,
    In (TokenBuild t) (trace (getToken env req)) /\
    (lookup_key "room" (args req) = None ->
     room (tok_grants t) = Some (JStr "my-room")) /\
    (forall v, lookup_key "room" (args req) = Some v ->
     room (tok_grants t) = Some (JStr v)) /\
    (lookup_key "participant" (args req) = None ->
     tok_name t = JStr "anonymous" /\ tok_identity t = JStr "anonymous") /\
    (forall v, lookup_key "participant" (args req) = Some v ->
     tok_name t = JStr v /\ tok_identity t = JStr v) /\
    (forall jwt, access_token t = Ret tt -> to_jwt t = Ret jwt ->
     answer (getToken env req) = Some {| status := 200; content := TextBody jwt |} /\
     (count_dots jwt = 2 ->
      exists s, content_text (answer (getToken env req)) = Some s /\ count_dots s = 2)).
Proof.
  intros Hcfg.
  pose proof (getToken_path env req) as P.
  remember (args_get (args req) "room" "my-room") as rn eqn:Hrn.
  remember (args_get (args req) "participant" "anonymous") as pn eqn:Hpn.
  exists (legacy_token env rn pn).
  assert (Hdefaults :
    (lookup_key "room" (args req) = None -> rn = "my-room") /\
    (forall v, lookup_key "room" (args req) = Some v -> rn = v) /\
    (lookup_key "participant" (args req) = None -> pn = "anonymous") /\
    (forall v, lookup_key "participant" (args req) = Some v -> pn = v)).
  { subst rn pn. unfold args_get.
    repeat split; try (intros ->; reflexivity); intros v ->; reflexivity. }
  destruct Hdefaults as (Hr0 & Hr1 & Hp0 & Hp1).
  split.
  { inversion P as [Hc E | e Hc Hb E | e Hc Hb Hs E | jwt Hc Hb Hs E];
      unfold trace; try rewrite <- E; cbn; try tauto; congruence. }
  split; [intros H; cbn; now rewrite (Hr0 H)|].
  split; [intros v H; cbn; now rewrite (Hr1 v H)|].
  split; [intros H; cbn; now rewrite (Hp0 H)|].
  split; [intros v H; cbn; now rewrite (Hp1 v H)|].
  intros jwt Hbuilt Hsigned.
  inversion P as [Hc E | e Hc Hb E | e Hc Hb Hs E | jwt' Hc Hb Hs E];
    try rewrite <- E; try congruence.
  rewrite Hsigned in Hs. injection Hs as <-.
  split; [reflexivity|].
  intros Hdots. exists jwt. split; [reflexivity | exact Hdots].
Qed.

Lemma legacy_defaults_and_raw_token_witness :
  exists t,
    In (TokenBuild t) (trace (getToken (lk := signing_api) env_ok (query []))) /\
    room (tok_grants t) = Some (JStr "my-room") /\
    tok_name t = JStr "anonymous" /\
    tok_identity t = JStr "anonymous" /\
    answer (getToken (lk := signing_api) env_ok (query []))
    = Some {| status := 200; content := TextBody "aGVhZGVy.Y2xhaW1z.c2lnbmF0dXJl" |} /\
    count_dots "aGVhZGVy.Y2xhaW1z.c2lnbmF0dXJl" = 2.
Proof.
  destruct (legacy_defaults_and_raw_token (lk := signing_api) env_ok (query []) eq_refl)
    as (t & Hin & Hroom & _ & Hname & _ & Hok).
  exists t. split; [exact Hin|]. split; [exact (Hroom eq_refl)|].
  destruct (Hname eq_refl) as [Hn Hi].
  split; [exact Hn|]. split; [exact Hi|].
  split; [exact (proj1 (Hok _ eq_refl eq_refl)) | reflexivity].
Defined.

(** ** Sample runs *)

(** The request of test_server.py, against a library that signs. *)
Example run_test_data :
  generate_token (lk := signing_api) env_ok (post test_data)
  = (Ret {| status := 200;
            content := JsonBody (JDict
              [("serverUrl", JStr "ws://localhost:7880");
               ("roomName", JStr "test-room");
               ("participantName", JStr "test-participant");
               ("participantToken", JStr "aGVhZGVy.Y2xhaW1z.c2lnbmF0dXJl")]) |},
     [EnvRead "LIVEKIT_API_KEY"; EnvRead "LIVEKIT_API_SECRET"; EnvRead "LIVEKIT_URL";
      TokenBuild (posted_token env_ok
                    [("roomName", JStr "test-room");
                     ("participantName", JStr "test-participant")]);
      TokenSign (posted_token env_ok
                   [("roomName", JStr "test-room");
                    ("participantName", JStr "test-participant")]);
      LogInfo [Lit "Generated token for participant '"; Fmt (JStr "test-participant");
               Lit "' in room '"; Fmt (JStr "test-room"); Lit "'"]]).
Proof. vm_compute. reflexivity. Qed.

(** Its token passes the format check of test_server.py. *)
Example run_test_data_token_format :
  count_dots "aGVhZGVy.Y2xhaW1z.c2lnbmF0dXJl" = 2.
Proof. reflexivity. Qed.

(** A body that is a non-empty list has no [get]: the [AttributeError]
    is caught and answered 500. *)
Example run_list_body :
  generate_token (lk := signing_api) env_ok (post (JList [JInt 1]))
  = (Ret {| status := 500;
            content := JsonBody (JDict [("error", JStr "Internal server error")]) |},
     [LogError [Lit "Error generating token: ";
                Lit "'list' object has no attribute 'get'"]]).
Proof. vm_compute. reflexivity. Qed.

(** A body Flask fails to parse: the exception of [get_json] is caught
    by the handler as well. *)
Example run_unparsable_body :
  generate_token (lk := signing_api) env_ok
    {| get_json := Raise (Exn "BadRequest" "400 Bad Request"); args := [] |}
  = (Ret {| status := 500;
            content := JsonBody (JDict [("error", JStr "Internal server error")]) |},
     [LogError [Lit "Error generating token: "; Lit "400 Bad Request"]]).
Proof. vm_compute. reflexivity. Qed.

(** GET /getToken?room= against a library that refuses an empty room:
    the signing call is made, and its failure answered 500. *)
Example run_legacy_empty_room :
  getToken (lk := strict_api) env_ok (query [("room", "")])
  = (Ret {| status := 500;
            content := JsonBody (JDict [("error", JStr "Internal server error")]) |},
     [EnvRead "LIVEKIT_API_KEY"; EnvRead "LIVEKIT_API_SECRET";
      TokenBuild (legacy_token env_ok "" "anonymous");
      TokenSign (legacy_token env_ok "" "anonymous");
      LogError [Lit "Error in legacy token endpoint: ";
                Lit "identity and room must be set when joining a room"]]).
Proof. vm_compute. reflexivity. Qed.

(** An empty LIVEKIT_URL is a value, not an absence: it is answered as
    it is. *)
Example run_empty_url :
  answer (generate_token (lk := signing_api) (<["LIVEKIT_URL" := ""]> env_ok)
            (post test_data))
  = Some {| status := 200;
            content := JsonBody (JDict
              [("serverUrl", JStr "");
               ("roomName", JStr "test-room");
               ("participantName", JStr "test-participant");
               ("participantToken", JStr "aGVhZGVy.Y2xhaW1z.c2lnbmF0dXJl")]) |}.
Proof. vm_compute. reflexivity. Qed.

(** * Further properties of the handlers *)

(** ** No exception leaves a handler *)

(** X1.  Whatever the request, the configuration and the library do,
    every route answers: no exception escapes a handler.  The answer of
    POST /token has status 200, 400 or 500; that of GET /getToken has
    status 200 or 500, never 400; that of GET /health has status 200.
    On every route the answer carries an ["error"] key exactly when its
    status is not 200. *)
Theorem handlers_always_answer {lk : LiveKitApi} env r req :
  exists resp,
    answer (handle env r req) = Some resp /\
    match r with
    | Health => status resp = 200
    | Token => status resp = 200 \/ status resp = 400 \/ status resp = 500
    | GetTokenLegacy => status resp = 200 \/ status resp = 500
    end /\
    (is_error resp = true <-> status resp <> 200).
Proof.
  destruct r; cbn [handle].
  - eexists. split; [reflexivity|]. split; [reflexivity|].
    split; [discriminate | intros H; now destruct H].
  - on_post_paths env req; eexists; (split; [reflexivity|]); cbn;
      (split; [tauto|]); split; (discriminate || (intros H; now destruct H) || tauto).
  - on_legacy_paths env req; eexists; (split; [reflexivity|]); cbn;
      (split; [tauto|]); split; (discriminate || (intros H; now destruct H) || tauto).
Qed.

(** ** Bodies that cannot be read as an object *)

(** X2.  When [request.get_json()] raises (Flask refusing the content
    type, or failing to parse the body), POST /token answers 500
    "Internal server error", not a 400: the exception is caught by the
    handler's own [except] clause.  The run reads no configuration,
    calls nothing of the library, and logs the message of the
    exception. *)
Theorem unreadable_body_is_internal_error {lk : LiveKitApi} env req e :
  get_json req = Raise e ->
  answer (generate_token env req)
  = Some {| status := 500;
            content := JsonBody (JDict [("error", JStr "Internal server error")]) |} /\
  trace (generate_token env req)
  = [LogError [Lit "Error generating token: "; Lit (exn_msg e)]] /\
  no_config_read (generate_token env req) /\
  no_token_call (generate_token env req).
Proof.
  intros Hbody.
  assert (Hrun : generate_token env req
                 = (Ret err_internal,
                    [LogError [Lit "Error generating token: "; Lit (exn_msg e)]])).
  { unfold generate_token, generate_token_try. rewrite Hbody. reflexivity. }
  rewrite Hrun. split; [reflexivity|]. split; [reflexivity|]. split.
  - intros key Hin. in_trace Hin.
  - intros t. split; intros Hin; in_trace Hin.
Qed.

Lemma unreadable_body_is_internal_error_witness :
  answer (generate_token (lk := signing_api) env_ok
            {| get_json := Raise (Exn "UnsupportedMediaType" "415 Unsupported Media Type");
               args := [] |})
  = Some {| status := 500;
            content := JsonBody (JDict [("error", JStr "Internal server error")]) |}.
Proof.
  exact (proj1 (unreadable_body_is_internal_error (lk := signing_api) env_ok
                  {| get_json := Raise (Exn "UnsupportedMediaType"
                                          "415 Unsupported Media Type");
                     args := [] |}
                  (Exn "UnsupportedMediaType" "415 Unsupported Media Type") eq_refl)).
Defined.

(** X3.  A body that parses to a truthy value other than an object (a
    non-empty list or string, a non-zero number, [true]) passes the
    no-data test, fails at [data.get], and is answered 500 "Internal
    server error"; the log names the type that has no [get].  No
    configuration is read and the library is not called. *)
Theorem non_object_body_is_internal_error {lk : LiveKitApi} env req data :
  get_json req = Ret data ->
  truthy data = true ->
  (forall d, data <> JDict d) ->
  answer (generate_token env req)
  = Some {| status := 500;
            content := JsonBody (JDict [("error", JStr "Internal server error")]) |} /\
  trace (generate_token env req)
  = [LogError [Lit "Error generating token: ";
               Lit ("'" ++ type_name data ++ "' object has no attribute 'get'")]] /\
  no_config_read (generate_token env req) /\
  no_token_call (generate_token env req).
Proof.
  intros Hbody Htruthy Hnodict.
  on_post_paths env req; same_body; try congruence;
    try (exfalso; eapply Hnodict; reflexivity).
  split; [reflexivity|]. split; [reflexivity|]. split.
  - intros key Hin. in_trace Hin.
  - intros t. split; intros Hin; in_trace Hin.
Qed.

Lemma non_object_body_is_internal_error_witness :
  generate_token (lk := signing_api) env_ok (post (JStr "roomName"))
  = (Ret {| status := 500;
            content := JsonBody (JDict [("error", JStr "Internal server error")]) |},
     [LogError [Lit "Error generating token: ";
                Lit "'str' object has no attribute 'get'"]]).
Proof.
  destruct (non_object_body_is_internal_error (lk := signing_api) env_ok
              (post (JStr "roomName")) (JStr "roomName") eq_refl eq_refl)
    as (Hans & Htr & _).
  { discriminate. }
  unfold answer, trace in Hans, Htr.
  destruct (generate_token (lk := signing_api) env_ok (post (JStr "roomName")))
    as [[resp|e] tr]; cbn in Hans, Htr; [|discriminate].
  injection Hans as ->. rewrite Htr. reflexivity.
Defined.

(** ** Exactly when a token is issued *)

(** X4.  POST /token answers 200 exactly when the body is an object with
    truthy roomName and participantName, both credentials are set and
    not empty, and the library builds and signs the token of the
    request; every other run is an error answer. *)
Theorem post_success_iff {lk : LiveKitApi} env req :
  (exists resp, answer (generate_token env req) = Some resp /\ status resp = 200)
  <->
  (exists d jwt,
     get_json req = Ret (JDict d) /\
     truthy (field d "roomName") = true /\
     truthy (field d "participantName") = true /\
     configured env = true /\
     access_token (posted_token env d) = Ret tt /\
     to_jwt (posted_token env d) = Ret jwt).
Proof.
  split.
  - intros (resp & Hans & Hst).
    on_post_paths env req; cbn in Hans; injection Hans as <-; cbn in Hst;
      try discriminate Hst.
    match goal with
    | H : _ && _ = true |- _ => apply andb_true_iff in H as [Hrn Hpn]
    end.
    exists d, jwt. repeat split; assumption.
  - intros (d & jwt & Hbody & Hrn & Hpn & Hcfg & Hb & Hs).
    on_post_paths env req; same_body; try congruence;
      try match goal with
          | H : _ && _ = false |- _ => rewrite Hrn, Hpn in H; discriminate H
          | H : forall d', JDict ?x <> JDict d' |- _ => now destruct (H x)
          | H : truthy (JDict ?x) = false |- _ =>
              destruct x; [discriminate Hrn | discriminate H]
          end.
    eexists. split; reflexivity.
Qed.

(** X5.  GET /getToken answers 200 exactly when both credentials are set
    and not empty and the library builds and signs the token of the
    query, that is, the token whose room is the room parameter (or
    my-room) and whose name and identity are the participant parameter
    (or anonymous). *)
Theorem legacy_success_iff {lk : LiveKitApi} env req :
  (exists resp, answer (getToken env req) = Some resp /\ status resp = 200)
  <->
  (exists jwt,
     configured env = true /\
     access_token (legacy_token env (args_get (args req) "room" "my-room")
                     (args_get (args req) "participant" "anonymous")) = Ret tt /\
     to_jwt (legacy_token env (args_get (args req) "room" "my-room")
               (args_get (args req) "participant" "anonymous")) = Ret jwt).
Proof.
  split.
  - intros (resp & Hans & Hst).
    on_legacy_paths env req; cbn in Hans; injection Hans as <-; cbn in Hst;
      try discriminate Hst.
    exists jwt. repeat split; assumption.
  - intros (jwt & Hcfg & Hb & Hs).
    on_legacy_paths env req; try congruence.
    eexists. split; reflexivity.
Qed.

(** ** The order of the library calls *)

(** X6.  A run of any route calls into the library in one of three
    ways: not at all; it builds one token; or it builds one token and
    then signs that same token.  So nothing is signed that was not
    built first, and no request signs twice. *)
Theorem library_calls_in_order {lk : LiveKitApi} env r req :
  token_events (trace (handle env r req)) = []
  \/ (exists t, token_events (trace (handle env r req)) = [TokenBuild t])
  \/ (exists t, token_events (trace (handle env r req)) = [TokenBuild t; TokenSign t]).
Proof.
  destruct r; cbn [handle].
  - left. reflexivity.
  - on_post_paths env req; cbn; eauto.
  - on_legacy_paths env req; cbn; eauto.
Qed.

(** X7.  The credentials are read before anything is built: in a run
    that builds a token, LIVEKIT_API_KEY and LIVEKIT_API_SECRET are the
    first two events, in that order, and the token carries the values
    read. *)
Theorem credentials_read_before_build {lk : LiveKitApi} env r req t :
  In (TokenBuild t) (trace (handle env r req)) ->
  exists rest,
    trace (handle env r req)
    = (EnvRead "LIVEKIT_API_KEY" :: EnvRead "LIVEKIT_API_SECRET" :: rest) /\
    tok_api_key t = env !! "LIVEKIT_API_KEY" /\
    tok_api_secret t = env !! "LIVEKIT_API_SECRET".
Proof.
  intros Ht. destruct r; cbn [handle] in *.
  - in_trace Ht.
  - on_post_paths env req; in_trace Ht; injection Ht as <-;
      (eexists; split; [reflexivity|]; split; reflexivity).
  - on_legacy_paths env req; in_trace Ht; injection Ht as <-;
      (eexists; split; [reflexivity|]; split; reflexivity).
Qed.

Lemma credentials_read_before_build_witness :
  exists rest,
    trace (handle (lk := build_failing_api (Exn "ValueError" "bad key")) env_ok
             GetTokenLegacy (query [("room", "lobby")]))
    = (EnvRead "LIVEKIT_API_KEY" :: EnvRead "LIVEKIT_API_SECRET" :: rest).
Proof.
  assert (Hin : In (TokenBuild (legacy_token env_ok "lobby" "anonymous"))
                   (trace (handle (lk := build_failing_api (Exn "ValueError" "bad key"))
                             env_ok GetTokenLegacy (query [("room", "lobby")])))).
  { vm_compute. tauto. }
  destruct (credentials_read_before_build
              (lk := build_failing_api (Exn "ValueError" "bad key")) env_ok
              GetTokenLegacy (query [("room", "lobby")]) _ Hin) as (rest & Htr & _).
  exists rest. exact Htr.
Defined.

(** ** What of the environment matters *)

(** X8.  The handlers read LIVEKIT_API_KEY, LIVEKIT_API_SECRET and
    LIVEKIT_URL and nothing else; GET /getToken and GET /health do not
    read LIVEKIT_URL.  Hence two environments that agree on these three
    variables give the same answer and the same events on every route. *)
Theorem only_three_variables_matter {lk : LiveKitApi} env1 env2 r req :
  (forall key, In key (env_reads (trace (handle env1 r req))) ->
     key = "LIVEKIT_API_KEY" \/ key = "LIVEKIT_API_SECRET"
     \/ (key = "LIVEKIT_URL" /\ r = Token)) /\
  (same_config env1 env2 -> handle env1 r req = handle env2 r req).
Proof.
  split.
  - intros key Hin. destruct r; cbn [handle] in Hin.
    + destruct Hin.
    + on_post_paths env1 req; cbn in Hin; intuition (subst; auto).
    + on_legacy_paths env1 req; cbn in Hin; intuition (subst; auto).
  - intros (Hk & Hs & Hu). destruct r; cbn [handle]; [reflexivity| |].
    + unfold generate_token, generate_token_try, getenv, getenv_default.
      now rewrite Hk, Hs, Hu.
    + unfold getToken, getToken_try, getenv.
      now rewrite Hk, Hs.
Qed.

(** ** What is logged *)

(** X9.  Missing credentials are reported differently by the two
    routes: POST /token (for a body that passed validation) writes the
    error record "Missing LIVEKIT_API_KEY or LIVEKIT_API_SECRET", GET
    /getToken writes no log record at all. *)
Theorem config_error_logging {lk : LiveKitApi} env req :
  configured env = false ->
  log_records (trace (getToken env req)) = [] /\
  (forall d,
     get_json req = Ret (JDict d) ->
     truthy (field d "roomName") = true ->
     truthy (field d "participantName") = true ->
     log_records (trace (generate_token env req))
     = [LogError [Lit "Missing LIVEKIT_API_KEY or LIVEKIT_API_SECRET"]]).
Proof.
  intros Hcfg. split.
  - on_legacy_paths env req; try congruence. reflexivity.
  - intros d Hbody Hrn Hpn.
    on_post_paths env req; same_body; try congruence;
      try match goal with
          | H : _ && _ = false |- _ => rewrite Hrn, Hpn in H; discriminate H
          | H : forall d', JDict ?x <> JDict d' |- _ => now destruct (H x)
          | H : truthy (JDict ?x) = false |- _ =>
              destruct x; [discriminate Hrn | discriminate H]
          end.
    reflexivity.
Qed.

Lemma config_error_logging_witness :
  log_records (trace (getToken (lk := signing_api) env_no_secret (query []))) = [] /\
  log_records (trace (generate_token (lk := signing_api) env_no_secret (post test_data)))
  = [LogError [Lit "Missing LIVEKIT_API_KEY or LIVEKIT_API_SECRET"]].
Proof.
  split.
  - exact (proj1 (config_error_logging (lk := signing_api) env_no_secret (query [])
                    eq_refl)).
  - exact (proj2 (config_error_logging (lk := signing_api) env_no_secret (post test_data)
                    eq_refl) _ eq_refl eq_refl eq_refl).
Defined.

(** X10.  Every run of POST /token writes at most one log record.  It is
    the info record, naming the participant and the room, exactly when
    the answer is 200; validation failures (both 400 answers) are not
    logged; and a 500 answer is always logged as an error. *)
Theorem post_log_by_status {lk : LiveKitApi} env req :
  exists resp,
    answer (generate_token env req) = Some resp /\
    (status resp = 200 ->
     exists d, get_json req = Ret (JDict d) /\
       log_records (trace (generate_token env req))
       = [LogInfo [Lit "Generated token for participant '";
                   Fmt (field d "participantName");
                   Lit "' in room '"; Fmt (field d "roomName"); Lit "'"]]) /\
    (status resp = 400 -> log_records (trace (generate_token env req)) = []) /\
    (status resp = 500 ->
     exists msg, log_records (trace (generate_token env req)) = [LogError msg]).
Proof.
  on_post_paths env req; eexists; (split; [reflexivity|]); cbn;
    (split; [|split]); try discriminate; intros _; eauto.
Qed.

(** * Properties of the test script *)

Lemma stry_handled {A} (m : Script A) (h : exn -> Script A) :
  (forall e, exists a, fst (h e) = Ret a) -> exists a, fst (stry m h) = Ret a.
Proof.
  intros Hh. destruct m as [[a|e] out]; cbn; [eauto|].
  destruct (Hh e) as [a Ha]. destruct (h e) as [o out']; cbn in *. eauto.
Qed.

Lemma sbind_print {B} (line : list piece) (k : unit -> Script B) :
  sbind (sprint line) k = (fst (k tt), Print line :: snd (k tt)).
Proof. unfold sbind, sprint. destruct (k tt); reflexivity. Qed.

(** ** The script always ends *)

(** X11.  Whatever the [requests] calls return or raise, and whatever
    the responses hold, [test_token_server] ends normally: every
    exception of the [try] block is caught by one of the three [except]
    clauses.  Its output starts with the banner and the line that
    announces the health check. *)
Theorem script_always_ends {rq : Requests} :
  fst test_token_server = Ret tt /\
  exists rest,
    printed test_token_server
    = (banner ++ [PLit "1. Testing health endpoint..."] :: rest)%list.
Proof.
  unfold test_token_server. rewrite !sbind_print. cbn [fst snd]. split.
  - destruct (stry_handled
                (test_token_server_try "http://localhost:8080" test_data)
                (fun e =>
                   if is_connection_error e
                   then sprint [PLit "❌ Could not connect to token server. Make sure it's running on port 8080."]
                   else if is_timeout e
                   then sprint [PLit "❌ Request timed out. Server might be overloaded."]
                   else sprint [PLit "❌ Unexpected error: "; PLit (exn_msg e)]))
      as [[] Ha]; [|exact Ha].
    intros e. exists tt.
    destruct (is_connection_error e); [reflexivity|].
    destruct (is_timeout e); reflexivity.
  - unfold printed, banner. cbn [snd omap list_omap app].
    unfold test_token_server_try. rewrite sbind_print.
    match goal with
    | |- context [stry (?o, Print ?l :: ?tr) ?h] =>
        destruct o as [a|e]; cbn [stry]
    end.
    + eexists. reflexivity.
    + match goal with
      | |- context [let '(_, _) := ?x in _] => destruct x as [o out']
      end.
      eexists. reflexivity.
Qed.

Ltac run_script :=
  unfold test_token_server, test_token_server_try, check_token_response,
    http_get, http_post, printed, posts, banner;
  change ("http://localhost:8080" ++ "/health") with "http://localhost:8080/health";
  change ("http://localhost:8080" ++ "/token") with "http://localhost:8080/token".

(** ** Failures of the requests *)

(** X12.  When the health request raises, the script makes no other
    request and reports the exception in one line, chosen by the first
    [except] clause that matches: a connection error is reported as such
    even when it is a timeout as well; only an exception that is neither
    has its message printed. *)
Theorem health_request_failure_reported {rq : Requests} e :
  requests_get "http://localhost:8080/health" 5 = Raise e ->
  snd test_token_server
  = (map Print banner ++
     [Print [PLit "1. Testing health endpoint..."];
      HttpGet "http://localhost:8080/health" 5;
      Print (if is_connection_error e
             then [PLit "❌ Could not connect to token server. Make sure it's running on port 8080."]
             else if is_timeout e
             then [PLit "❌ Request timed out. Server might be overloaded."]
             else [PLit "❌ Unexpected error: "; PLit (exn_msg e)])])%list.
Proof.
  intros Hget. run_script. rewrite Hget. cbn.
  destruct (is_connection_error e); [reflexivity|].
  destruct (is_timeout e); reflexivity.
Qed.

Lemma health_request_failure_reported_witness :
  printed (test_token_server (rq := refused_client))
  = (banner ++
     [[PLit "1. Testing health endpoint..."];
      [PLit "❌ Could not connect to token server. Make sure it's running on port 8080."]])%list.
Proof.
  unfold printed.
  rewrite (health_request_failure_reported (rq := refused_client)
             (Exn "ConnectTimeout" "timed out") eq_refl).
  reflexivity.
Defined.

(** X13.  When the health check answers with a status other than 200,
    the script stops there: it prints the status and the failure line
    and never posts to /token. *)
Theorem unhealthy_server_not_posted {rq : Requests} resp :
  requests_get "http://localhost:8080/health" 5 = Ret resp ->
  status_code resp <> 200 ->
  posts test_token_server = [] /\
  printed test_token_server
  = (banner ++
     [[PLit "1. Testing health endpoint..."];
      [PLit "Health check status: "; PNat (status_code resp)];
      [PLit "❌ Health check failed"]])%list.
Proof.
  intros Hget Hst. run_script. rewrite Hget. cbn.
  apply Nat.eqb_neq in Hst. rewrite Hst. cbn. split; reflexivity.
Qed.

Lemma unhealthy_server_not_posted_witness :
  posts (test_token_server (rq := unhealthy_client)) = [] /\
  printed (test_token_server (rq := unhealthy_client))
  = (banner ++
     [[PLit "1. Testing health endpoint..."];
      [PLit "Health check status: "; PNat 503];
      [PLit "❌ Health check failed"]])%list.
Proof.
  apply (unhealthy_server_not_posted (rq := unhealthy_client)
           {| status_code := 503;
              json_of := Raise (Exn "JSONDecodeError" "Expecting value");
              text := "Service Unavailable" |} eq_refl).
  discriminate.
Defined.

(** ** The checks on the token response *)

Lemma missing_from_dict d fields :
  missing_from (JDict d) fields
  = Ret (List.filter (fun f => negb (bool_decide (is_Some (lookup_key f d)))) fields).
Proof.
  induction fields as [|f rest IH]; cbn; [reflexivity|].
  rewrite IH. destruct (bool_decide (is_Some (lookup_key f d))); reflexivity.
Qed.

(** The output of the script when the health check passes and the token
    response is a 200 whose body is an object with a string (or no)
    participantToken. *)
Lemma script_output_on_object {rq : Requests} hresp tresp d s :
  requests_get "http://localhost:8080/health" 5 = Ret hresp ->
  status_code hresp = 200 ->
  requests_post "http://localhost:8080/token" [("Content-Type", "application/json")]
    test_data 10 = Ret tresp ->
  status_code tresp = 200 ->
  json_of tresp = Ret (JDict d) ->
  default_or (JStr "") (lookup_key "participantToken" d) = JStr s ->
  test_token_server
  = (Ret tt,
     (map Print banner ++
      [Print [PLit "1. Testing health endpoint..."];
       HttpGet "http://localhost:8080/health" 5;
       Print [PLit "Health check status: "; PNat 200];
       Print [PLit "✅ Health check passed"];
       Print [PLit (newline ++ "2. Testing token generation...")];
       HttpPost "http://localhost:8080/token" [("Content-Type", "application/json")]
         test_data 10;
       Print [PLit "Token generation status: "; PNat 200];
       Print [PLit "✅ Token generation successful!"];
       Print [PLit (newline ++ "Response:")];
       Print [PDumps (JDict d)];
       Print (match List.filter
                      (fun f => negb (bool_decide (is_Some (lookup_key f d))))
                      required_fields with
              | [] => [PLit "✅ All required fields present in response"]
              | missing =>
                  [PLit "⚠️  Missing fields in response: ";
                   PRepr (JList (map JStr missing))]
              end);
       Print (if (count_dots s =? 2)%nat
              then [PLit "✅ Token appears to be valid JWT format"]
              else [PLit "⚠️  Token doesn't appear to be valid JWT format"])])%list).
Proof.
  intros Hget Hh Hpost Ht Hjson Htok.
  remember (List.filter (fun f => negb (bool_decide (is_Some (lookup_key f d))))
              required_fields) as missing eqn:Hmissing.
  run_script. rewrite Hget. cbn - [missing_from]. rewrite Hh. cbn - [missing_from].
  rewrite Hpost. cbn - [missing_from]. rewrite Ht. cbn - [missing_from].
  rewrite Hjson. cbn - [missing_from].
  rewrite (missing_from_dict d required_fields). rewrite <- Hmissing.
  cbn. rewrite Htok.
  destruct missing as [|m ms]; cbn; destruct (count_dots s =? 2)%nat; reflexivity.
Qed.

(** X14.  On a 200 token response whose body is an object, the script
    prints the all-fields line exactly when serverUrl, roomName,
    participantName and participantToken are all keys of the object, and
    the valid-format line exactly when participantToken (the empty
    string when the key is absent) has exactly two dots; the two checks
    do not depend on each other, and the run ends normally either way. *)
Theorem script_checks_object_response {rq : Requests} hresp tresp d s :
  requests_get "http://localhost:8080/health" 5 = Ret hresp ->
  status_code hresp = 200 ->
  requests_post "http://localhost:8080/token" [("Content-Type", "application/json")]
    test_data 10 = Ret tresp ->
  status_code tresp = 200 ->
  json_of tresp = Ret (JDict d) ->
  default_or (JStr "") (lookup_key "participantToken" d) = JStr s ->
  fst test_token_server = Ret tt /\
  (In [PLit "✅ All required fields present in response"] (printed test_token_server)
   <-> forall f, In f required_fields -> is_Some (lookup_key f d)) /\
  (In [PLit "✅ Token appears to be valid JWT format"] (printed test_token_server)
   <-> count_dots s = 2).
Proof.
  intros Hget Hh Hpost Ht Hjson Htok.
  rewrite (script_output_on_object hresp tresp d s Hget Hh Hpost Ht Hjson Htok).
  split; [reflexivity|]. unfold printed, banner. cbn [snd map app omap list_omap].
  assert (Hfields :
    List.filter (fun f => negb (bool_decide (is_Some (lookup_key f d)))) required_fields = []
    <-> forall f, In f required_fields -> is_Some (lookup_key f d)).
  { unfold required_fields. cbn [List.filter].
    split.
    - intros Hnil f Hf.
      repeat match type of Hnil with
             | context [bool_decide ?P] =>
                 let Hd := fresh "Hd" in
                 destruct (bool_decide P) eqn:Hd; cbn in Hnil; try discriminate Hnil;
                 apply bool_decide_eq_true in Hd
             end.
      cbn in Hf. intuition (subst; assumption).
    - intros Hall.
      rewrite !bool_decide_eq_true_2 by (apply Hall; cbn; tauto). reflexivity. }
  split.
  - rewrite <- Hfields.
    destruct (List.filter _ required_fields) as [|m ms];
      destruct (count_dots s =? 2)%nat; cbn;
      (split; [intros H; try reflexivity;
               repeat (destruct H as [H|H]; [discriminate H|]); destruct H
              | intros H; try discriminate H; tauto]).
  - rewrite <- Nat.eqb_eq.
    destruct (List.filter _ required_fields) as [|m ms];
      destruct (count_dots s =? 2)%nat; cbn;
      (split; [intros H; try reflexivity;
               repeat (destruct H as [H|H]; [discriminate H|]); destruct H
              | intros H; try discriminate H; tauto]).
Qed.

Lemma script_checks_object_response_witness :
  In [PLit "✅ All required fields present in response"]
     (printed (test_token_server (rq := direct_client signing_api env_ok))) /\
  In [PLit "✅ Token appears to be valid JWT format"]
     (printed (test_token_server (rq := direct_client signing_api env_ok))).
Proof.
  destruct (script_checks_object_response (rq := direct_client signing_api env_ok)
              {| status_code := 200;
                 json_of := Ret (JDict [("status", JStr "healthy")]);
                 text := "{...}" |}
              {| status_code := 200;
                 json_of := Ret (JDict
                   [("serverUrl", JStr "ws://localhost:7880");
                    ("roomName", JStr "test-room");
                    ("participantName", JStr "test-participant");
                    ("participantToken", JStr "aGVhZGVy.Y2xhaW1z.c2lnbmF0dXJl")]);
                 text := "{...}" |}
              [("serverUrl", JStr "ws://localhost:7880");
               ("roomName", JStr "test-room");
               ("participantName", JStr "test-participant");
               ("participantToken", JStr "aGVhZGVy.Y2xhaW1z.c2lnbmF0dXJl")]
              "aGVhZGVy.Y2xhaW1z.c2lnbmF0dXJl"
              eq_refl eq_refl eq_refl eq_refl eq_refl eq_refl)
    as (_ & Hfields & Hformat).
  split.
  - apply Hfields. intros f Hf. cbn in Hf.
    destruct Hf as [<-|[<-|[<-|[<-|[]]]]]; eexists; reflexivity.
  - apply Hformat. reflexivity.
Defined.

(** The output of the script when the health check passes and the token
    response has a status other than 200. *)
Lemma script_output_on_failure {rq : Requests} hresp tresp :
  requests_get "http://localhost:8080/health" 5 = Ret hresp ->
  status_code hresp = 200 ->
  requests_post "http://localhost:8080/token" [("Content-Type", "application/json")]
    test_data 10 = Ret tresp ->
  status_code tresp <> 200 ->
  test_token_server
  = (Ret tt,
     (map Print banner ++
      [Print [PLit "1. Testing health endpoint..."];
       HttpGet "http://localhost:8080/health" 5;
       Print [PLit "Health check status: "; PNat 200];
       Print [PLit "✅ Health check passed"];
       Print [PLit (newline ++ "2. Testing token generation...")];
       HttpPost "http://localhost:8080/token" [("Content-Type", "application/json")]
         test_data 10;
       Print [PLit "Token generation status: "; PNat (status_code tresp)];
       Print [PLit "❌ Token generation failed"];
       Print [PLit "Response: "; PLit (text tresp)]])%list).
Proof.
  intros Hget Hh Hpost Ht.
  run_script. rewrite Hget. cbn - [missing_from]. rewrite Hh. cbn - [missing_from].
  rewrite Hpost. cbn - [missing_from].
  apply Nat.eqb_neq in Ht. rewrite Ht. reflexivity.
Qed.

(** ** The script against this server *)

Lemma lookup_key_perm {V} (d d' : list (string * V)) k :
  Permutation d d' -> NoDup (map fst d) -> lookup_key k d' = lookup_key k d.
Proof.
  induction 1 as [ | [kx x] l l' Hp IH | [kx x] [ky y] l | l l' l'' Hp1 IH1 Hp2 IH2 ];
    intros Hnd.
  - reflexivity.
  - cbn in *. apply NoDup_cons in Hnd as [_ Hnd]. rewrite (IH Hnd). reflexivity.
  - cbn in *. apply NoDup_cons in Hnd as [Hnotin _].
    destruct (String.eqb k kx) eqn:Ex; destruct (String.eqb k ky) eqn:Ey; try reflexivity.
    apply String.eqb_eq in Ex, Ey. subst. exfalso. apply Hnotin. left.
  - rewrite IH2, IH1; [reflexivity | assumption |].
    rewrite <- (Permutation_map fst Hp1). exact Hnd.
Qed.

Lemma insert_item_perm kv l : Permutation (kv :: l) (insert_item kv l).
Proof.
  induction l as [|kv' rest IH]; cbn; [reflexivity|].
  destruct (String.leb (fst kv) (fst kv')); [reflexivity|].
  rewrite perm_swap. now apply perm_skip.
Qed.

Lemma sort_items_perm l : Permutation l (sort_items l).
Proof.
  induction l as [|kv rest IH]; cbn; [reflexivity|].
  rewrite <- insert_item_perm. now apply perm_skip.
Qed.

(** X15.  When the script's two requests reach the handlers of this
    server, its run has one of two outcomes.  Either the server issued
    a token: then the script prints the answer, an object with exactly
    the four items of the handler's answer in some order, finds all four
    required fields in it, and accepts the token exactly when it has two
    dots.  Or the credentials are incomplete or the library failed: then
    the script reports a failed token generation with status 500.  It
    never reports a missing field, a failed health check or an
    unexpected error. *)
Theorem script_against_this_server {lk : LiveKitApi} env {rq : Requests} :
  reaches_server env rq ->
  (exists jwt answered,
     configured env = true /\
     to_jwt (posted_token env [("roomName", JStr "test-room");
                               ("participantName", JStr "test-participant")])
     = Ret jwt /\
     Permutation
       [("serverUrl", JStr (default_or "ws://localhost:7880" (env !! "LIVEKIT_URL")));
        ("roomName", JStr "test-room");
        ("participantName", JStr "test-participant");
        ("participantToken", JStr jwt)]
       answered /\
     printed test_token_server
     = (banner ++
        [[PLit "1. Testing health endpoint..."];
         [PLit "Health check status: "; PNat 200];
         [PLit "✅ Health check passed"];
         [PLit (newline ++ "2. Testing token generation...")];
         [PLit "Token generation status: "; PNat 200];
         [PLit "✅ Token generation successful!"];
         [PLit (newline ++ "Response:")];
         [PDumps (JDict answered)];
         [PLit "✅ All required fields present in response"];
         (if (count_dots jwt =? 2)%nat
          then [PLit "✅ Token appears to be valid JWT format"]
          else [PLit "⚠️  Token doesn't appear to be valid JWT format"])])%list)
  \/
  (exists body_text,
     (configured env = false
      \/ (exists e, access_token
                      (posted_token env [("roomName", JStr "test-room");
                                         ("participantName", JStr "test-participant")])
                    = Raise e)
      \/ (exists e, to_jwt
                      (posted_token env [("roomName", JStr "test-room");
                                         ("participantName", JStr "test-participant")])
                    = Raise e)) /\
     printed test_token_server
     = (banner ++
        [[PLit "1. Testing health endpoint..."];
         [PLit "Health check status: "; PNat 200];
         [PLit "✅ Health check passed"];
         [PLit (newline ++ "2. Testing token generation...")];
         [PLit "Token generation status: "; PNat 500];
         [PLit "❌ Token generation failed"];
         [PLit "Response: "; PLit body_text]])%list).
Proof.
  intros [Hget Hpost].
  destruct Hget as (hresp & Hg & (r & Hans & Hst & _)).
  cbn in Hans. injection Hans as <-. cbn in Hst.
  destruct Hpost as (tresp & Hp & (r' & Hans' & Hst' & Hjson)).
  cbn [handle] in Hans'.
  on_post_paths env (post test_data);
    match goal with
    | H : get_json (post test_data) = _ |- _ => cbn in H; try discriminate H
    end;
    try match goal with
        | H : Ret test_data = Ret ?x |- _ => injection H as <-
        end;
    try match goal with
        | H : truthy test_data = false |- _ => discriminate H
        | H : forall d', test_data <> JDict d' |- _ => exfalso; eapply H; reflexivity
        end;
    try match goal with
        | H : Ret (JDict _) = Ret (JDict ?x) |- _ => injection H as <-
        end;
    try match goal with
        | H : truthy (field _ _) && truthy (field _ _) = false |- _ => discriminate H
        end;
    cbn in Hans'; injection Hans' as <-; cbn in Hst'.
  - right. exists (text tresp). split; [tauto|].
    rewrite (script_output_on_failure hresp tresp Hg Hst Hp) by (rewrite Hst'; discriminate).
    rewrite Hst'. reflexivity.
  - right. exists (text tresp). split; [eauto|].
    rewrite (script_output_on_failure hresp tresp Hg Hst Hp) by (rewrite Hst'; discriminate).
    rewrite Hst'. reflexivity.
  - right. exists (text tresp). split; [eauto|].
    rewrite (script_output_on_failure hresp tresp Hg Hst Hp) by (rewrite Hst'; discriminate).
    rewrite Hst'. reflexivity.
  - destruct (Hjson _ eq_refl) as (answered & Hbody & Hperm).
    assert (Hkeys : forall k,
      lookup_key k answered
      = lookup_key k
          [("serverUrl", JStr (default_or "ws://localhost:7880" (env !! "LIVEKIT_URL")));
           ("roomName", JStr "test-room");
           ("participantName", JStr "test-participant");
           ("participantToken", JStr jwt)]).
    { intros k. apply lookup_key_perm; [exact Hperm|].
      cbn. apply (bool_decide_unpack _). vm_compute. exact I. }
    left. exists jwt, answered.
    split; [assumption|]. split; [assumption|]. split; [exact Hperm|].
    assert (Htok : default_or (JStr "") (lookup_key "participantToken" answered) = JStr jwt).
    { rewrite Hkeys. reflexivity. }
    rewrite (script_output_on_object hresp tresp answered jwt Hg Hst Hp Hst' Hbody Htok).
    unfold required_fields. cbn [List.filter]. rewrite !Hkeys. reflexivity.
Qed.

Lemma sorting_client_reaches_server (lk : LiveKitApi) env :
  reaches_server env (sorting_client lk env).
Proof.
  split.
  - eexists. split; [reflexivity|].
    eexists. split; [reflexivity|]. split; [reflexivity|].
    intros d Hd. cbn in Hd. injection Hd as <-.
    eexists. split; [reflexivity|]. reflexivity.
  - cbn [requests_post sorting_client handle].
    change (String.eqb "http://localhost:8080/token" "http://localhost:8080/token")
      with true. cbn iota.
    unfold sorted_http_of, carries, answer.
    on_post_paths env (post test_data); cbn [fst];
      (eexists; split; [reflexivity|]; eexists; split; [reflexivity|];
       split; [reflexivity|]; intros d' Hd; cbn in Hd; injection Hd as <-;
       eexists; (split; [reflexivity|]));
      try (cbn; reflexivity).
    match goal with
    | H : get_json (post test_data) = Ret (JDict _) |- _ =>
        cbn in H; injection H as <-
    end.
    cbn [sort_keys map fst snd field lookup_key default_or String.eqb Ascii.eqb Bool.eqb].
    apply sort_items_perm.
Qed.

Lemma script_against_this_server_witness :
  exists jwt answered,
    Permutation
      [("serverUrl", JStr "wss://lk.example.org");
       ("roomName", JStr "test-room");
       ("participantName", JStr "test-participant");
       ("participantToken", JStr jwt)]
      answered /\
    printed (test_token_server (rq := sorting_client signing_api env_with_url))
    = (banner ++
       [[PLit "1. Testing health endpoint..."];
        [PLit "Health check status: "; PNat 200];
        [PLit "✅ Health check passed"];
        [PLit (newline ++ "2. Testing token generation...")];
        [PLit "Token generation status: "; PNat 200];
        [PLit "✅ Token generation successful!"];
        [PLit (newline ++ "Response:")];
        [PDumps (JDict answered)];
        [PLit "✅ All required fields present in response"];
        (if (count_dots jwt =? 2)%nat
         then [PLit "✅ Token appears to be valid JWT format"]
         else [PLit "⚠️  Token doesn't appear to be valid JWT format"])])%list.
Proof.
  destruct (script_against_this_server (lk := signing_api) env_with_url
              (rq := sorting_client signing_api env_with_url)
              (sorting_client_reaches_server signing_api env_with_url))
    as [(jwt & answered & _ & _ & Hperm & Hout) | (body_text & Hwhy & _)].
  - exists jwt, answered. split; [exact Hperm | exact Hout].
  - exfalso. destruct Hwhy as [Hc | [[e He] | [e He]]]; discriminate.
Defined.

(** The keys of the answer, as the sorting client returns them. *)
Example run_sorted_answer :
  requests_post (Requests := sorting_client signing_api env_ok)
    "http://localhost:8080/token" [("Content-Type", "application/json")] test_data 10
  = Ret {| status_code := 200;
           json_of := Ret (JDict
             [("participantName", JStr "test-participant");
              ("participantToken", JStr "aGVhZGVy.Y2xhaW1z.c2lnbmF0dXJl");
              ("roomName", JStr "test-room");
              ("serverUrl", JStr "ws://localhost:7880")]);
           text := "{...}" |}.
Proof. vm_compute. reflexivity. Qed.
